(** * Hook utilities of the multi-agent-observability plugin

    A shallow embedding of
      hooks/scripts/utils/validation.py
      hooks/scripts/utils/server.py
      hooks/scripts/utils/source_app.py
    and the properties of the validator and of the event client.

    Conventions of the model.
    - A Python [str] is a [string]; each [ascii] stands for the code point
      of the same number, so the model covers strings whose code points are
      below 256.
    - A Python value that comes out of a JSON document is a [pyval]; a [dict]
      is the list of its items in insertion order, which is the order
      [json.dumps] writes them in; [os.environ] is a [gmap string string].
    - A call that can raise returns a [result]: [Returns v] or [Raises e],
      where [e] is a [pyexn], an exception with its class; a clause of a
      [try] takes the exceptions that are instances of its classes. *)

From Stdlib Require Import ZArith NArith Ascii String List Bool Lia.
From stdpp Require Import base decidable option list strings gmap pretty.

Local Open Scope Z_scope.
#[local] Set Warnings "-clear-no-such-hyp".

(** ** Characters and strings *)

Module PyStr.

Definition chars (s : string) : list ascii := String.list_ascii_of_string s.
Definition of_chars (l : list ascii) : string := String.string_of_list_ascii l.

Definition code (c : ascii) : N := N_of_ascii c.

(** [str.isspace] on one character, which is also the class [\s] of a
    [str] pattern: TAB..CR, FS..US, SPACE, NEL and NBSP. *)
Definition isspace (c : ascii) : bool :=
  let n := code c in
  ((9 <=? n) && (n <=? 13) || (28 <=? n) && (n <=? 31) || (n =? 32)
   || (n =? 133) || (n =? 160))%N.

(** Simple lower-case mapping: A..Z, and the Latin-1 capitals other than
    the multiplication sign. *)
Definition lower (c : ascii) : ascii :=
  let n := code c in
  if ((65 <=? n) && (n <=? 90)
      || (192 <=? n) && (n <=? 222) && negb (n =? 215))%N
  then ascii_of_N (n + 32) else c.

Definition eqb_char (a b : ascii) : bool := bool_decide (a = b).

(** [s.strip()]: leading and trailing white space removed. *)
Fixpoint lstrip_chars (l : list ascii) : list ascii :=
  match l with
  | c :: l' => if isspace c then lstrip_chars l' else l
  | [] => []
  end.

Definition strip_chars (l : list ascii) : list ascii :=
  rev (lstrip_chars (rev (lstrip_chars l))).

Definition strip (s : string) : string := of_chars (strip_chars (chars s)).

(** [s[:stop]] with Python's treatment of a negative or too large bound. *)
Definition slice_to (s : string) (stop : Z) : string :=
  let n := Z.of_nat (String.length s) in
  let stop' := if stop <? 0 then Z.max 0 (stop + n) else Z.min stop n in
  of_chars (take (Z.to_nat stop') (chars s)).

(** Truthiness of a [str]. *)
Definition truthy (s : string) : bool :=
  match s with EmptyString => false | _ => true end.

End PyStr.

(** ** The fragment of [re] the pattern tables use

    Literal characters, escaped punctuation, the class [\s], the postfix
    [+] and the anchor [$]. Anything else is refused by [compile]. *)

Module Re.

Inductive flag := NOFLAG | IGNORECASE.

Inductive atom :=
| Lit (c : ascii)
| Space.

Inductive node :=
| One (a : atom)
| Many (a : atom)
| End.

Definition regex := list node.

Inductive token :=
| TAtom (a : atom)
| TPlus
| TEnd.

Definition special (c : ascii) : bool :=
  existsb (PyStr.eqb_char c) (PyStr.chars ".^*+?{}[]|()").

Definition alnum (c : ascii) : bool :=
  let n := PyStr.code c in
  ((48 <=? n) && (n <=? 57) || (65 <=? n) && (n <=? 90)
   || (97 <=? n) && (n <=? 122))%N.

Definition escape (c : ascii) : option atom :=
  if PyStr.eqb_char c "s" then Some Space
  else if alnum c then None
  else Some (Lit c).

Fixpoint lex (p : list ascii) : option (list token) :=
  match p with
  | [] => Some []
  | "\"%char :: c :: p' => a ← escape c; (TAtom a ::.) <$> lex p'
  | "\"%char :: [] => None
  | "$"%char :: p' => (TEnd ::.) <$> lex p'
  | "+"%char :: p' => (TPlus ::.) <$> lex p'
  | c :: p' => if special c then None else (TAtom (Lit c) ::.) <$> lex p'
  end.

Fixpoint build (ts : list token) : option regex :=
  match ts with
  | [] => Some []
  | TAtom a :: TPlus :: ts' => (Many a ::.) <$> build ts'
  | TAtom a :: ts' => (One a ::.) <$> build ts'
  | TEnd :: ts' => (End ::.) <$> build ts'
  | TPlus :: _ => None
  end.

Definition compile (pattern : string) : option regex :=
  lex (PyStr.chars pattern) ≫= build.

Definition ignorecase (f : flag) : bool :=
  match f with IGNORECASE => true | NOFLAG => false end.

Definition atom_match (f : flag) (a : atom) (c : ascii) : bool :=
  match a with
  | Space => PyStr.isspace c
  | Lit p =>
      if ignorecase f then PyStr.eqb_char (PyStr.lower c) (PyStr.lower p)
      else PyStr.eqb_char c p
  end.

(** [$] without MULTILINE: the end of the subject, or just before a
    line feed that ends it. *)
Definition at_end (s : list ascii) : bool :=
  match s with
  | [] => true
  | [c] => PyStr.eqb_char c "010"
  | _ => false
  end.

Fixpoint match_here (f : flag) (re : regex) : list ascii → bool :=
  match re with
  | [] => λ _, true
  | End :: re' => λ s, at_end s && match_here f re' s
  | One a :: re' => λ s,
      match s with
      | c :: s' => atom_match f a c && match_here f re' s'
      | [] => false
      end
  | Many a :: re' =>
      fix more (s : list ascii) : bool :=
        match s with
        | c :: s' => atom_match f a c && (more s' || match_here f re' s')
        | [] => false
        end
  end.

Fixpoint search_from (f : flag) (re : regex) (s : list ascii) : bool :=
  match_here f re s ||
  match s with
  | _ :: s' => search_from f re s'
  | [] => false
  end.

(** [re.search(pattern, subject, flags)], as a truth value. A pattern
    outside the fragment matches nothing; the tables below stay inside
    it ([tables_compile]). *)
Definition search (pattern subject : string) (f : flag) : bool :=
  match compile pattern with
  | Some re => search_from f re (PyStr.chars subject)
  | None => false
  end.

End Re.

(** ** Python values, exceptions and results *)

#[warnings="-register-all"] Inductive pyval :=
| PyNone
| PyBool (b : bool)
| PyInt (z : Z)
| PyFloat (lexeme : string)
| PyStr (s : string)
| PyList (l : list pyval)
| PyDict (items : list (string * pyval)).

(** The exception classes the scripts raise, catch or let through. *)
Inductive exn_class :=
| ExceptionC
| OSErrorC
| ValueErrorC
| TypeErrorC
| RuntimeErrorC
| RecursionErrorC
| UnicodeErrorC
| UnicodeDecodeErrorC
| ConnectionErrorC
| ConnectionResetErrorC
| TimeoutErrorC
| URLErrorC
| HTTPErrorC
| HTTPExceptionC
| BadStatusLineC
| RemoteDisconnectedC
| JSONDecodeErrorC.

Global Instance exn_class_eq_dec : EqDecision exn_class.
Proof. solve_decision. Defined.

(** The bases of each class ([__bases__], below [Exception]):
    [urllib.error.HTTPError] derives from [URLError], which derives from
    [OSError], as [TimeoutError] and [ConnectionError] do;
    [json.JSONDecodeError] and [UnicodeDecodeError] are [ValueError]s;
    [http.client.BadStatusLine] is an [HTTPException], which is no
    [OSError]; [http.client.RemoteDisconnected] derives from both
    [ConnectionResetError] and [BadStatusLine]. *)
Definition bases (c : exn_class) : list exn_class :=
  match c with
  | ExceptionC => []
  | OSErrorC | ValueErrorC | TypeErrorC | RuntimeErrorC | HTTPExceptionC =>
      [ExceptionC]
  | RecursionErrorC => [RuntimeErrorC]
  | UnicodeErrorC | JSONDecodeErrorC => [ValueErrorC]
  | UnicodeDecodeErrorC => [UnicodeErrorC]
  | ConnectionErrorC | TimeoutErrorC | URLErrorC => [OSErrorC]
  | ConnectionResetErrorC => [ConnectionErrorC]
  | HTTPErrorC => [URLErrorC]
  | BadStatusLineC => [HTTPExceptionC]
  | RemoteDisconnectedC => [ConnectionResetErrorC; BadStatusLineC]
  end.

Fixpoint issubclass_fuel (n : nat) (c d : exn_class) : bool :=
  bool_decide (c = d) ||
  match n with
  | S n' => existsb (λ b, issubclass_fuel n' b d) (bases c)
  | O => false
  end.

(** No chain of bases above is longer than four steps. *)
Definition issubclass : exn_class → exn_class → bool := issubclass_fuel 4.

Inductive pyexn :=
| OSError (msg : string)
| URLError (reason : string)
| HTTPError (code : Z) (msg body : string)
| ConnectionError (msg : string)
| TimeoutError (msg : string)
| RemoteDisconnected (msg : string)
| BadStatusLine (line : string)
| ValueError (msg : string)
| UnicodeDecodeError (msg : string)
| JSONDecodeError (msg : string)
| RecursionError (msg : string)
| TypeError.

Definition class_of (e : pyexn) : exn_class :=
  match e with
  | OSError _ => OSErrorC
  | URLError _ => URLErrorC
  | HTTPError _ _ _ => HTTPErrorC
  | ConnectionError _ => ConnectionErrorC
  | TimeoutError _ => TimeoutErrorC
  | RemoteDisconnected _ => RemoteDisconnectedC
  | BadStatusLine _ => BadStatusLineC
  | ValueError _ => ValueErrorC
  | UnicodeDecodeError _ => UnicodeDecodeErrorC
  | JSONDecodeError _ => JSONDecodeErrorC
  | RecursionError _ => RecursionErrorC
  | TypeError => TypeErrorC
  end.

Inductive result (A : Type) :=
| Returns (v : A)
| Raises (e : pyexn).
Arguments Returns {A} v.
Arguments Raises {A} e.

Definition bind {A B} (r : result A) (k : A → result B) : result B :=
  match r with
  | Returns v => k v
  | Raises e => Raises e
  end.

Notation "'let*' x := r 'in' k" := (bind r (λ x, k))
  (at level 10, x pattern, r at level 100, k at level 200).

(** [try: body  except C1 as e: h1  except C2 as e: h2 ...]: the first
    clause, in source order, whose class the raised exception is an
    instance of handles it. *)
Definition handler (A : Type) : Type := list exn_class * (pyexn → result A).

Fixpoint dispatch {A} (e : pyexn) (hs : list (handler A)) : result A :=
  match hs with
  | [] => Raises e
  | (classes, h) :: hs' =>
      if existsb (issubclass (class_of e)) classes then h e
      else dispatch e hs'
  end.

Definition try_except {A} (body : result A) (hs : list (handler A)) : result A :=
  match body with
  | Returns v => Returns v
  | Raises e => dispatch e hs
  end.

(** ** validation.py *)

Definition DANGEROUS_RM_PATTERNS : list string :=
  [ "rm\s+-rf\s+/";
    "rm\s+-rf\s+~";
    "rm\s+-rf\s+\*";
    "rm\s+-rf\s+\.\.";
    "rm\s+-fr\s+/";
    "rm\s+-fr\s+~";
    "rm\s+-fr\s+\*";
    "rm\s+-fr\s+\.\." ].

Definition SAFE_RM_DIRECTORIES : list string :=
  [ "/tmp/";
    "/var/tmp/";
    "trees/";
    "\.cache/";
    "node_modules/";
    "__pycache__/";
    "\.pytest_cache/";
    "dist/";
    "build/" ].

Definition SENSITIVE_FILE_PATTERNS : list string :=
  [ "\.env$";
    "\.env\.local$";
    "\.env\.production$";
    "credentials\.json$";
    "secrets\.json$";
    "\.pem$";
    "\.key$";
    "id_rsa";
    "id_ed25519" ].

Definition ALLOWED_SENSITIVE_PATTERNS : list string :=
  [ "\.env\.sample$";
    "\.env\.example$";
    "\.env\.template$" ].

(** [re.search] raises [TypeError] on a subject that is not a [str]; every
    table is non-empty, so each checker makes that call first. *)
Definition expect_str (v : pyval) : result string :=
  match v with
  | PyStr s => Returns s
  | _ => Raises TypeError
  end.

Definition dangerous_reason (pattern : string) : string :=
  "Dangerous rm command detected: matches pattern '" +:+ pattern +:+ "'".

Definition sensitive_reason (file_path : string) : string :=
  "Sensitive file access detected: " +:+ file_path.

(** The inner loop with its [break]: some safe pattern is found in the
    command, searched as written. *)
Definition is_safe (command : string) : bool :=
  existsb (λ safe_pattern, Re.search safe_pattern command Re.NOFLAG)
          SAFE_RM_DIRECTORIES.

(** The outer loop, over the patterns still to try. *)
Fixpoint dangerous_loop (patterns : list string) (command : string)
  : bool * option string :=
  match patterns with
  | [] => (false, None)
  | pattern :: patterns' =>
      if Re.search pattern command Re.IGNORECASE then
        if negb (is_safe command)
        then (true, Some (dangerous_reason pattern))
        else dangerous_loop patterns' command
      else dangerous_loop patterns' command
  end.

Definition is_dangerous_rm_command (command : pyval)
  : result (bool * option string) :=
  let* command := expect_str command in
  Returns (dangerous_loop DANGEROUS_RM_PATTERNS command).

Definition is_sensitive_file_access (file_path : pyval)
  : result (bool * option string) :=
  let* file_path := expect_str file_path in
  if existsb (λ pattern, Re.search pattern file_path Re.IGNORECASE)
             ALLOWED_SENSITIVE_PATTERNS
  then Returns (false, None)
  else if existsb (λ pattern, Re.search pattern file_path Re.IGNORECASE)
                  SENSITIVE_FILE_PATTERNS
  then Returns (true, Some (sensitive_reason file_path))
  else Returns (false, None).

(** [d.get(key, default)] and [d[key] = v] on the items of a [dict]. *)
Definition dict := list (string * pyval).

Fixpoint dict_lookup (d : dict) (key : string) : option pyval :=
  match d with
  | [] => None
  | (k, v) :: d' => if bool_decide (k = key) then Some v else dict_lookup d' key
  end.

Definition dict_get (d : dict) (key : string) (dflt : pyval) : pyval :=
  default dflt (dict_lookup d key).

Fixpoint dict_set (d : dict) (key : string) (v : pyval) : dict :=
  match d with
  | [] => [(key, v)]
  | (k, w) :: d' =>
      if bool_decide (k = key) then (k, v) :: d' else (k, w) :: dict_set d' key v
  end.

Definition verdict : Type := bool * option string.

Definition validate_tool_use (tool_name : string) (tool_input : dict)
  : result verdict :=
  let* blocked :=
    if bool_decide (tool_name = "Bash") then
      let command := dict_get tool_input "command" (PyStr "") in
      let* (is_dangerous, reason) := is_dangerous_rm_command command in
      Returns (if is_dangerous then Some (false, reason) else None)
    else Returns None in
  match blocked with
  | Some v => Returns v
  | None =>
      let* blocked :=
        if bool_decide (tool_name ∈ ["Read"; "Write"; "Edit"]) then
          let file_path := dict_get tool_input "file_path" (PyStr "") in
          let* (is_sensitive, reason) := is_sensitive_file_access file_path in
          Returns (if is_sensitive then Some (false, reason) else None)
        else Returns None in
      match blocked with
      | Some v => Returns v
      | None => Returns (true, None)
      end
  end.

Definition bash_input (command : string) : dict := [("command", PyStr command)].
Definition file_input (file_path : string) : dict := [("file_path", PyStr file_path)].

(** ** source_app.py *)

(** [session_id] is a [str] or [None]. *)
Definition get_truncated_session_id (session_id : option string) (length : Z)
  : string :=
  match session_id with
  | None => "unknown"
  | Some s => if negb (PyStr.truthy s) then "unknown" else PyStr.slice_to s length
  end.

Definition default_length : Z := 8.

Definition get_agent_display_id (source_app : string) (session_id : option string)
  : string :=
  let truncated := get_truncated_session_id session_id default_length in
  source_app +:+ ":" +:+ truncated.

(** ** server.py *)

(** The [json] module, as far as the scripts rely on it. [loads] returns the
    decoded value or raises. What it raises on a text that is no document is
    [json.JSONDecodeError], and a text with nothing but white space is no
    document; on some texts it raises other exceptions, which the class
    leaves open: [RecursionError] on nesting deeper than the interpreter
    allows, [ValueError] on an integer of more digits than [int] converts. *)
Class Json := {
  json_dumps : pyval → string;
  json_loads : string → result pyval;
  json_loads_blank : ∀ s,
    PyStr.strip s = "" → ∃ e, json_loads s = Raises e;
}.

(** What one call of [urlopen] meets. [Unreachable]: the request cannot be
    sent (name resolution, refused connection, a timeout while connecting),
    which [urlopen] reports as [URLError]. [Responds]: an answer with its
    final status, reason phrase and body. The other three happen after the
    request has been sent, where [urlopen] wraps nothing. [Silent]: no
    answer arrives within the timeout. [Disconnects]: the server closes the
    connection without an answer. [Garbles]: what arrives is not an HTTP
    status line. *)
Inductive server_behaviour :=
| Unreachable (reason : string)
| Responds (status : Z) (msg body : string)
| Silent
| Disconnects
| Garbles (line : string).

Record request := {
  req_url : string;
  req_method : string;
  req_data : option string;
  req_headers : list (string * string);
  req_timeout : Z;
}.

Record response := {
  status : Z;
  read : string;
}.

Definition network := request → server_behaviour.

(** [urllib.request.urlopen]: a failure to send the request is raised as
    [URLError]; a final status outside 200..299 is raised as [HTTPError]; a
    2xx answer is returned. A failure to read the answer is raised as the
    connection raised it: [TimeoutError] (the [socket.timeout] of the read),
    [http.client.RemoteDisconnected], [http.client.BadStatusLine]. *)
Definition urlopen (net : network) (req : request) : result response :=
  match net req with
  | Unreachable reason => Raises (URLError reason)
  | Responds st msg body =>
      if (200 <=? st) && (st <? 300)
      then Returns {| status := st; read := body |}
      else Raises (HTTPError st msg body)
  | Silent => Raises (TimeoutError "timed out")
  | Disconnects =>
      Raises (RemoteDisconnected "Remote end closed connection without response")
  | Garbles line => Raises (BadStatusLine line)
  end.

(** [str(e)] *)
Definition str_exn (e : pyexn) : string :=
  match e with
  | URLError reason => "<urlopen error " +:+ reason +:+ ">"
  | HTTPError code msg _ => "HTTP Error " +:+ pretty code +:+ ": " +:+ msg
  | BadStatusLine line => if PyStr.truthy line then line else "''"
  | OSError msg | ConnectionError msg | TimeoutError msg
  | RemoteDisconnected msg | ValueError msg | UnicodeDecodeError msg
  | JSONDecodeError msg | RecursionError msg => msg
  | TypeError => "expected string or bytes-like object"
  end.

Definition DEFAULT_SERVER_URL : string := "http://localhost:4000".
Definition DEFAULT_TIMEOUT : Z := 5.

Definition environ := gmap string string.

Definition get_server_url (env : environ) : string :=
  default DEFAULT_SERVER_URL (env !! "OBSERVABILITY_SERVER_URL").

Record event := {
  source_app : string;
  session_id : string;
  hook_event_type : string;
  payload : dict;
  chat : option (list pyval);
  summary : option string;
  model_name : option string;
}.

Definition event_data (ev : event) : dict :=
  let event_data :=
    [ ("source_app", PyStr (source_app ev));
      ("session_id", PyStr (session_id ev));
      ("hook_event_type", PyStr (hook_event_type ev));
      ("payload", PyDict (payload ev)) ] in
  let event_data :=
    match chat ev with
    | Some c => dict_set event_data "chat" (PyList c)
    | None => event_data
    end in
  let event_data :=
    match summary ev with
    | Some s => dict_set event_data "summary" (PyStr s)
    | None => event_data
    end in
  match model_name ev with
  | Some m => dict_set event_data "model_name" (PyStr m)
  | None => event_data
  end.

Section Client.
Context `{Json}.
Variable env : environ.
Variable net : network.

Definition events_request (ev : event) : request :=
  {| req_url := get_server_url env +:+ "/events";
     req_method := "POST";
     req_data := Some (json_dumps (PyDict (event_data ev)));
     req_headers := [ ("Content-Type", "application/json");
                      ("Accept", "application/json") ];
     req_timeout := DEFAULT_TIMEOUT |}.

Definition send_event (ev : event) : result pyval :=
  let server_url := get_server_url env in
  try_except
    (let* response := urlopen net (events_request ev) in
     let response_data := read response in
     json_loads response_data)
    [ ([URLErrorC], λ e,
        Raises (ConnectionError
          ("Failed to connect to server at " +:+ server_url +:+ ": "
           +:+ str_exn e)));
      ([HTTPErrorC], λ e,
        match e with
        | HTTPError code _ body =>
            Raises (ValueError
              ("Server returned error " +:+ pretty code +:+ ": " +:+ body))
        | _ => Raises e
        end) ].

Definition health_request : request :=
  {| req_url := get_server_url env +:+ "/health";
     req_method := "GET";
     req_data := None;
     req_headers := [];
     req_timeout := 2 |}.

Definition check_server_health : result bool :=
  try_except
    (let* response := urlopen net health_request in
     Returns (bool_decide (status response = 200)))
    [ ([URLErrorC; HTTPErrorC], λ _, Returns false) ].

(** The text of standard input is the argument, so the inputs are those
    [sys.stdin.read()] returns as text; the result carries the lines written
    to standard error next to the value. What [json.loads] raises and the
    clause does not name leaves the function. *)
Definition read_stdin_json (stdin : string) : result (list string * pyval) :=
  try_except
    (let input_data := stdin in
     if negb (PyStr.truthy (PyStr.strip input_data))
     then Returns ([], PyDict [])
     else
       let* v := json_loads input_data in
       Returns ([], v))
    [ ([JSONDecodeErrorC], λ e,
        Returns (["Warning: Failed to parse stdin JSON: " +:+ str_exn e],
                 PyDict [])) ].

End Client.

(** ** A JSON codec over the strings of the model

    The grammar of [json.loads]: white space is SPACE, TAB, LF and CR; a
    number without fraction and exponent is an [int], any other a [float]
    kept as its lexeme; a later duplicate key replaces the value of the
    earlier one. An integer is converted when its last digit has been read,
    and one of more than 4300 digits (the default of
    [sys.get_int_max_str_digits()]) raises [ValueError] there. Every text
    that is no document raises [JSONDecodeError]; the message of the
    library, which names the place, is not reproduced. Two things of the
    library are outside this decoder: an escape above code point 255 has no
    character in the strings of the model and is refused, and nesting is
    followed to any depth, where the interpreter gives up with
    [RecursionError] at its recursion limit. *)

Module JsonText.

Definition json_ws (c : ascii) : bool :=
  existsb (PyStr.eqb_char c) [" "; "009"; "010"; "013"]%char.

Fixpoint skip_ws (s : list ascii) : list ascii :=
  match s with
  | c :: s' => if json_ws c then skip_ws s' else s
  | [] => []
  end.

Definition isdigit (c : ascii) : bool :=
  let n := PyStr.code c in ((48 <=? n) && (n <=? 57))%N.

Fixpoint span_digits (s : list ascii) : list ascii * list ascii :=
  match s with
  | c :: s' =>
      if isdigit c then let '(ds, r) := span_digits s' in (c :: ds, r)
      else ([], s)
  | [] => ([], [])
  end.

Definition digit_val (c : ascii) : Z := Z.of_N (PyStr.code c) - 48.

Definition int_of_digits (ds : list ascii) : Z :=
  fold_left (λ acc c, 10 * acc + digit_val c) ds 0.

Definition hex_val (c : ascii) : option N :=
  let n := PyStr.code c in
  if ((48 <=? n) && (n <=? 57))%N then Some (n - 48)%N
  else if ((97 <=? n) && (n <=? 102))%N then Some (n - 87)%N
  else if ((65 <=? n) && (n <=? 70))%N then Some (n - 55)%N
  else None.

(** The characters of a string literal after its opening quote. *)
Fixpoint parse_string (s : list ascii) : option (list ascii * list ascii) :=
  match s with
  | [] => None
  | "034"%char :: rest => Some ([], rest)
  | "\"%char :: "u"%char :: h1 :: h2 :: h3 :: h4 :: rest =>
      a ← hex_val h1; b ← hex_val h2; c ← hex_val h3; d ← hex_val h4;
      if ((a =? 0) && (b =? 0))%N
      then '(cs, r) ← parse_string rest; Some (ascii_of_N (16 * c + d) :: cs, r)
      else None
  | "\"%char :: e :: rest =>
      c ← match e with
          | "034" | "\" | "/" => Some e
          | "b" => Some "008"
          | "f" => Some "012"
          | "n" => Some "010"
          | "r" => Some "013"
          | "t" => Some "009"
          | _ => None
          end%char;
      '(cs, r) ← parse_string rest; Some (c :: cs, r)
  | c :: rest =>
      if (PyStr.code c <? 32)%N then None
      else '(cs, r) ← parse_string rest; Some (c :: cs, r)
  end.

Definition parse_fraction (s : list ascii) : list ascii * list ascii :=
  match s with
  | "."%char :: s' =>
      match span_digits s' with
      | ([], _) => ([], s)
      | (ds, r) => ("."%char :: ds, r)
      end
  | _ => ([], s)
  end.

Definition parse_exponent (s : list ascii) : list ascii * list ascii :=
  match s with
  | e :: s' =>
      if PyStr.eqb_char e "e" || PyStr.eqb_char e "E" then
        let '(sign, s'') :=
          match s' with
          | c :: t => if PyStr.eqb_char c "+" || PyStr.eqb_char c "-"
                      then ([c], t) else ([], s')
          | [] => ([], s')
          end in
        match span_digits s'' with
        | ([], _) => ([], s)
        | (ds, r) => (e :: sign ++ ds, r)
        end
      else ([], s)
  | [] => ([], s)
  end.

(** What a text that is no document raises. *)
Definition refuse {A} : result A := Raises (JSONDecodeError "Expecting value").

Definition expect {A} (o : option A) : result A :=
  match o with
  | Some a => Returns a
  | None => refuse
  end.

Definition MAX_STR_DIGITS : Z := 4300.

(** [int(numstr)] *)
Definition to_int (neg : bool) (ds : list ascii) : result pyval :=
  let n := Z.of_nat (length ds) in
  if MAX_STR_DIGITS <? n then
    Raises (ValueError
      ("Exceeds the limit (4300 digits) for integer string conversion: value has "
       +:+ pretty n
       +:+ " digits; use sys.set_int_max_str_digits() to increase the limit"))
  else
    let z := int_of_digits ds in
    Returns (PyInt (if neg then - z else z)).

(** A number after its optional minus sign. *)
Definition parse_number (neg : bool) (s : list ascii)
  : result (pyval * list ascii) :=
  let '(ds, r) := span_digits s in
  match ds with
  | [] => refuse
  | d :: ds' =>
      let '(int_part, r) :=
        if PyStr.eqb_char d "0" then ([d], ds' ++ r) else (ds, r) in
      let '(frac, r) := parse_fraction r in
      let '(exp, r) := parse_exponent r in
      let sign := if neg then ["-"%char] else [] in
      match frac, exp with
      | [], [] =>
          let* v := to_int neg int_part in
          Returns (v, r)
      | _, _ =>
          Returns (PyFloat (PyStr.of_chars (sign ++ int_part ++ frac ++ exp)), r)
      end
  end.

Definition starts_with (w s : list ascii) : option (list ascii) :=
  if bool_decide (take (length w) s = w) then Some (drop (length w) s) else None.

Section Containers.
Variable parse_value : list ascii → result (pyval * list ascii).

(** The elements of an array after the first one has been asked for. *)
Fixpoint parse_elements (n : nat) (acc : list pyval) (s : list ascii)
  : result (pyval * list ascii) :=
  match n with
  | O => refuse
  | S n' =>
      let* (v, r) := parse_value s in
      match skip_ws r with
      | "]"%char :: r' => Returns (PyList (acc ++ [v]), r')
      | ","%char :: r' => parse_elements n' (acc ++ [v]) (skip_ws r')
      | _ => refuse
      end
  end.

Fixpoint parse_members (n : nat) (acc : dict) (s : list ascii)
  : result (pyval * list ascii) :=
  match n, s with
  | S n', "034"%char :: s' =>
      let* (k, r) := expect (parse_string s') in
      match skip_ws r with
      | ":"%char :: r' =>
          let* (v, r'') := parse_value (skip_ws r') in
          let acc' := dict_set acc (PyStr.of_chars k) v in
          match skip_ws r'' with
          | "}"%char :: t => Returns (PyDict acc', t)
          | ","%char :: t => parse_members n' acc' (skip_ws t)
          | _ => refuse
          end
      | _ => refuse
      end
  | _, _ => refuse
  end.
End Containers.

Fixpoint parse_value (fuel : nat) (s : list ascii) : result (pyval * list ascii) :=
  match fuel with
  | O => refuse
  | S fuel' =>
      match s with
      | "034"%char :: r =>
          let* (cs, r') := expect (parse_string r) in
          Returns (PyStr (PyStr.of_chars cs), r')
      | "{"%char :: r =>
          match skip_ws r with
          | "}"%char :: r' => Returns (PyDict [], r')
          | r' => parse_members (parse_value fuel') fuel' [] r'
          end
      | "["%char :: r =>
          match skip_ws r with
          | "]"%char :: r' => Returns (PyList [], r')
          | r' => parse_elements (parse_value fuel') fuel' [] r'
          end
      | "n"%char :: _ =>
          let* r := expect (starts_with (PyStr.chars "null") s) in
          Returns (PyNone, r)
      | "t"%char :: _ =>
          let* r := expect (starts_with (PyStr.chars "true") s) in
          Returns (PyBool true, r)
      | "f"%char :: _ =>
          let* r := expect (starts_with (PyStr.chars "false") s) in
          Returns (PyBool false, r)
      | "N"%char :: _ =>
          let* r := expect (starts_with (PyStr.chars "NaN") s) in
          Returns (PyFloat "nan", r)
      | "I"%char :: _ =>
          let* r := expect (starts_with (PyStr.chars "Infinity") s) in
          Returns (PyFloat "inf", r)
      | "-"%char :: r =>
          match starts_with (PyStr.chars "Infinity") r with
          | Some r' => Returns (PyFloat "-inf", r')
          | None => parse_number true r
          end
      | _ => parse_number false s
      end
  end.

(** The value of a document: one value between white space. The fuel is
    the length of the text, more than its values and their nesting. *)
Definition loads (s : string) : result pyval :=
  let cs := PyStr.chars s in
  let* (v, r) := parse_value (S (length cs)) (skip_ws cs) in
  match skip_ws r with
  | [] => Returns v
  | _ => refuse
  end.

(** [json.dumps] with its defaults: [", "] and [": "] separators, and
    every character outside SPACE..[~] escaped. *)
Definition hex_digit (n : N) : ascii :=
  if (n <? 10)%N then ascii_of_N (48 + n) else ascii_of_N (87 + n).

Definition encode_char (c : ascii) : list ascii :=
  let n := PyStr.code c in
  match c with
  | "034" => ["\"; "034"]
  | "\" => PyStr.chars "\\"
  | "010" => PyStr.chars "\n"
  | "013" => PyStr.chars "\r"
  | "009" => PyStr.chars "\t"
  | "008" => PyStr.chars "\b"
  | "012" => PyStr.chars "\f"
  | _ =>
      if ((32 <=? n) && (n <=? 126))%N then [c]
      else PyStr.chars "\u00" ++ [hex_digit (n / 16); hex_digit (n mod 16)]
  end%char.

Definition encode_string (s : string) : list ascii :=
  "034"%char :: concat (map encode_char (PyStr.chars s)) ++ ["034"%char].

Fixpoint join (sep : list ascii) (parts : list (list ascii)) : list ascii :=
  match parts with
  | [] => []
  | [p] => p
  | p :: ps => p ++ sep ++ join sep ps
  end.

Fixpoint encode (v : pyval) : list ascii :=
  match v with
  | PyNone => PyStr.chars "null"
  | PyBool true => PyStr.chars "true"
  | PyBool false => PyStr.chars "false"
  | PyInt z => PyStr.chars (pretty z)
  | PyFloat lexeme => PyStr.chars lexeme
  | PyStr s => encode_string s
  | PyList l => "["%char :: join (PyStr.chars ", ") (map encode l) ++ ["]"%char]
  | PyDict items =>
      "{"%char ::
      join (PyStr.chars ", ")
           (map (λ kv, encode_string (fst kv) ++ PyStr.chars ": " ++ encode (snd kv))
                items)
      ++ ["}"%char]
  end.

Definition dumps (v : pyval) : string := PyStr.of_chars (encode v).

End JsonText.

(** * The vocabulary of the statements *)

(** [matches f re m rest]: the nodes of [re] consume exactly [m] when [rest]
    is what follows [m] in the subject. *)
Inductive matches (f : Re.flag) : Re.regex → list ascii → list ascii → Prop :=
| matches_nil rest :
    matches f [] [] rest
| matches_end re m rest :
    Re.at_end (m ++ rest) = true →
    matches f re m rest →
    matches f (Re.End :: re) m rest
| matches_one a re c m rest :
    Re.atom_match f a c = true →
    matches f re m rest →
    matches f (Re.One a :: re) (c :: m) rest
| matches_many a re c cs m rest :
    Re.atom_match f a c = true →
    Forall (λ x, Re.atom_match f a x = true) cs →
    matches f re m rest →
    matches f (Re.Many a :: re) (c :: cs ++ m) rest.

(** The pattern that is a word, character by character. *)
Definition lit_nodes (w : list ascii) : Re.regex :=
  map (λ c, Re.One (Re.Lit c)) w.

Definition lit_re (w : string) : Re.regex := lit_nodes (PyStr.chars w).

(** The pattern [w$]. *)
Definition suffix_re (w : string) : Re.regex := lit_re w ++ [Re.End].

(** Equality of two texts under a flag: as written, or after lowering. *)
Definition ci_eq (a b : string) : Prop :=
  map PyStr.lower (PyStr.chars a) = map PyStr.lower (PyStr.chars b).

Definition text_eq (f : Re.flag) (a b : string) : Prop :=
  if Re.ignorecase f then ci_eq a b else a = b.

(** A non-empty run of white space. *)
Definition blank (ws : string) : Prop :=
  ws ≠ "" ∧ Forall (λ c, PyStr.isspace c = true) (PyStr.chars ws).

(** The eight patterns for a recursive forced delete. *)
Definition rm_regex (flags target : string) : Re.regex :=
  lit_re "rm" ++ Re.Many Re.Space :: lit_re ("-" +:+ flags)
  ++ Re.Many Re.Space :: lit_re target.

(** [command] has, somewhere, the words [rm], [-flags] and [target] in a
    row, the first two followed by white space, letters in either case. *)
Definition recursive_force_delete (flags target command : string) : Prop :=
  ∃ pre rm ws1 opt ws2 tgt post,
    command = pre +:+ rm +:+ ws1 +:+ opt +:+ ws2 +:+ tgt +:+ post ∧
    ci_eq rm "rm" ∧ blank ws1 ∧ ci_eq opt ("-" +:+ flags) ∧ blank ws2 ∧
    ci_eq tgt target.

(** A text found inside another, as written or in any case. *)
Definition contains (needle hay : string) : Prop :=
  ∃ pre post, hay = pre +:+ needle +:+ post.

Definition contains_ci (needle hay : string) : Prop :=
  ∃ pre mid post, hay = pre +:+ mid +:+ post ∧ ci_eq mid needle.

Definition ends_with_ci (suffix s : string) : Prop :=
  ∃ pre mid, s = pre +:+ mid ∧ ci_eq mid suffix.

Definition LF : string := String "010" "".

(** What a case-insensitive search for [suffix$] finds: the subject ends
    with the suffix, or with the suffix and one line feed. *)
Definition matches_suffix (suffix s : string) : Prop :=
  ends_with_ci suffix s ∨ ends_with_ci (suffix +:+ LF) s.

(** The two flag orders and the four targets of the dangerous patterns. *)
Definition FLAG_ORDERS : list string := ["rf"; "fr"].
Definition RM_TARGETS : list string := ["/"; "~"; "*"; ".."].

(** Each pattern of [DANGEROUS_RM_PATTERNS] with the flags and the target
    it looks for. *)
Definition rm_shapes : list (string * (string * string)) :=
  [ ("rm\s+-rf\s+/", ("rf", "/"));
    ("rm\s+-rf\s+~", ("rf", "~"));
    ("rm\s+-rf\s+\*", ("rf", "*"));
    ("rm\s+-rf\s+\.\.", ("rf", ".."));
    ("rm\s+-fr\s+/", ("fr", "/"));
    ("rm\s+-fr\s+~", ("fr", "~"));
    ("rm\s+-fr\s+\*", ("fr", "*"));
    ("rm\s+-fr\s+\.\.", ("fr", "..")) ].

(** The words the other three tables look for, without their escapes. *)
Definition SAFE_NAMES : list string :=
  [ "/tmp/"; "/var/tmp/"; "trees/"; ".cache/"; "node_modules/";
    "__pycache__/"; ".pytest_cache/"; "dist/"; "build/" ].

Definition SENSITIVE_SUFFIXES : list string :=
  [ ".env"; ".env.local"; ".env.production"; "credentials.json";
    "secrets.json"; ".pem"; ".key" ].

Definition KEY_STEMS : list string := [ "id_rsa"; "id_ed25519" ].

Definition EXCEPTION_SUFFIXES : list string :=
  [ ".env.sample"; ".env.example"; ".env.template" ].

(** A command with a recursive forced delete of one of the targets. *)
Definition dangerous_command (command : string) : Prop :=
  ∃ flags target,
    flags ∈ FLAG_ORDERS ∧ target ∈ RM_TARGETS ∧
    recursive_force_delete flags target command.

(** A command in which a sandbox name occurs as written. *)
Definition in_sandbox (command : string) : Prop :=
  ∃ d, d ∈ SAFE_NAMES ∧ contains d command.

(** A path that matches an exception suffix; a path that ends in a
    sensitive suffix or contains the stem of a key file. *)
Definition exception_path (file_path : string) : Prop :=
  ∃ w, w ∈ EXCEPTION_SUFFIXES ∧ matches_suffix w file_path.

Definition sensitive_path (file_path : string) : Prop :=
  (∃ w, w ∈ SENSITIVE_SUFFIXES ∧ ends_with_ci w file_path) ∨
  (∃ w, w ∈ KEY_STEMS ∧ contains_ci w file_path).

(** The tools whose [file_path] is checked. *)
Definition FILE_TOOLS : list string := ["Read"; "Write"; "Edit"].

(** The verdict [validate_tool_use] makes of a checker's answer. *)
Definition verdict_of (r : bool * option string) : verdict :=
  if r.1 then (false, r.2) else (true, None).

(** The field of [tool_input] the validator reads for a tool, if any. *)
Definition relevant_field (tool_name : string) : option string :=
  if bool_decide (tool_name = "Bash") then Some "command"
  else if bool_decide (tool_name ∈ FILE_TOOLS) then Some "file_path"
  else None.

(** A verdict with a reason that is a non-empty string; a verdict that is
    (allowed, no reason) or (blocked, reason). *)
Definition reason_present (v : verdict) : Prop :=
  ∃ s, v.2 = Some s ∧ s ≠ "".

(** The four tables together. *)
Definition ALL_PATTERNS : list string :=
  DANGEROUS_RM_PATTERNS ++ SAFE_RM_DIRECTORIES
  ++ SENSITIVE_FILE_PATTERNS ++ ALLOWED_SENSITIVE_PATTERNS.

(** The answer of [is_sensitive_file_access] on a [str]. *)
Definition sensitive_check (file_path : string) : bool * option string :=
  if existsb (λ pattern, Re.search pattern file_path Re.IGNORECASE)
             ALLOWED_SENSITIVE_PATTERNS
  then (false, None)
  else if existsb (λ pattern, Re.search pattern file_path Re.IGNORECASE)
                  SENSITIVE_FILE_PATTERNS
  then (true, Some (sensitive_reason file_path))
  else (false, None).

Definition well_formed (v : verdict) : Prop :=
  v.1 = true ∧ v.2 = None ∨ v.1 = false ∧ reason_present v.

(** A text in which every character is white space (the empty text too). *)
Definition whitespace_only (s : string) : Prop :=
  Forall (λ c, PyStr.isspace c = true) (PyStr.chars s).

(** An event, and a server that rejects every request. *)
Definition sample_event : event :=
  {| source_app := "coach";
     session_id := "abc123";
     hook_event_type := "PreToolUse";
     payload := [("tool_name", PyStr "Bash")];
     chat := None;
     summary := None;
     model_name := None |}.

Definition rejecting_server : network :=
  λ _, Responds 500 "Internal Server Error" "oops".

(** A hook input and the mapping it stands for. *)
(** The other case of an ASCII letter; any other character as it is. *)
Definition swapcase (c : ascii) : ascii :=
  let n := PyStr.code c in
  if ((65 <=? n) && (n <=? 90))%N then ascii_of_N (n + 32)
  else if ((97 <=? n) && (n <=? 122))%N then ascii_of_N (n - 32)
  else c.

(** [p'] is [p] with some of its ASCII letters in their other case. *)
Definition case_variant (p p' : string) : Prop :=
  Forall2 (λ c c', c' = c ∨ c' = swapcase c) (PyStr.chars p) (PyStr.chars p').

(** A server that takes the connection and the request and sends nothing. *)
Definition silent_server : network := λ _, Silent.

Definition quoted (s : string) : string := String "034" s +:+ String "034" "".

Definition hook_text : string :=
  "{" +:+ quoted "tool_name" +:+ ": " +:+ quoted "Bash" +:+ ", "
  +:+ quoted "tool_input" +:+ ": {" +:+ quoted "command" +:+ ": "
  +:+ quoted "ls -la" +:+ "}}".

Definition hook_data : dict :=
  [ ("tool_name", PyStr "Bash");
    ("tool_input", PyDict [("command", PyStr "ls -la")]) ].

(** A path in which a sensitive pattern is found: it matches a sensitive
    suffix, or contains the stem of a key file. *)
Definition sensitive_match (file_path : string) : Prop :=
  (∃ w, w ∈ SENSITIVE_SUFFIXES ∧ matches_suffix w file_path) ∨
  (∃ w, w ∈ KEY_STEMS ∧ contains_ci w file_path).

(** A JSON object whose member is an integer of 4301 digits. *)
Definition long_integer : string := PyStr.of_chars (repeat "1"%char 4301).

Definition long_integer_text : string :=
  "{" +:+ quoted "n" +:+ ": " +:+ long_integer +:+ "}".

(** The value of a transcript line, when it has one. *)
Definition line_value `{Json} (line : string) : option pyval :=
  match json_loads (PyStr.strip line) with
  | Returns v => Some v
  | Raises _ => None
  end.

(** A line the loop passes: blank once stripped, decoded, or refused by
    [json.loads] with a [JSONDecodeError]. *)
Definition line_passes `{Json} (line : string) : bool :=
  negb (PyStr.truthy (PyStr.strip line)) ||
  match json_loads (PyStr.strip line) with
  | Returns _ => true
  | Raises e => issubclass (class_of e) JSONDecodeErrorC
  end.

(** A text without a slash; the characters of [.git]. *)
Definition no_slash (l : list ascii) : Prop := Forall (λ c, c ≠ "/"%char) l.

(** No occurrence of [old] in a text. *)
Definition absent (old s : list ascii) : Prop := ∀ a b, s ≠ a ++ old ++ b.

Definition DOT_GIT : list ascii := PyStr.chars ".git".

(** Hook inputs for a dangerous command and for a list. *)
Definition rm_hook_text : string :=
  "{" +:+ quoted "tool_name" +:+ ": " +:+ quoted "Bash" +:+ ", "
  +:+ quoted "tool_input" +:+ ": {" +:+ quoted "command" +:+ ": "
  +:+ quoted "rm -rf /" +:+ "}}".

Definition rm_hook_data : dict :=
  [ ("tool_name", PyStr "Bash");
    ("tool_input", PyDict [("command", PyStr "rm -rf /")]) ].

Definition list_hook_text : string := "[1]".

(** * More of the scripts *)

(** ** Library calls on strings and paths *)

(** [s.split(sep)] for a separator of one character. *)
Fixpoint split_go (sep : ascii) (cur : list ascii) (s : list ascii)
  : list (list ascii) :=
  match s with
  | [] => [cur]
  | c :: s' =>
      if PyStr.eqb_char c sep then cur :: split_go sep [] s'
      else split_go sep (cur ++ [c]) s'
  end.

Definition str_split (s : string) (sep : ascii) : list string :=
  map PyStr.of_chars (split_go sep [] (PyStr.chars s)).

(** [l[-1]] of a list that [split] returned, which is never empty. *)
Definition last_item (l : list string) : string := default "" (last l).

(** [s.replace(old, new)] for a non-empty [old]: the occurrences of [old],
    found from the left and not overlapping, become [new]. The fuel is the
    length of the subject, one unit for each character passed. *)
Fixpoint replace_fuel (fuel : nat) (old new s : list ascii) : list ascii :=
  match fuel, s with
  | S fuel', c :: s' =>
      match JsonText.starts_with old s with
      | Some rest => new ++ replace_fuel fuel' old new rest
      | None => c :: replace_fuel fuel' old new s'
      end
  | _, _ => s
  end.

Definition str_replace (s old new : string) : string :=
  PyStr.of_chars
    (replace_fuel (String.length s) (PyStr.chars old) (PyStr.chars new)
                  (PyStr.chars s)).

(** The text after the last slash, the whole text when there is none. *)
Fixpoint after_last_slash (cur : list ascii) (s : list ascii) : list ascii :=
  match s with
  | [] => cur
  | c :: s' =>
      if PyStr.eqb_char c "/" then after_last_slash [] s'
      else after_last_slash (cur ++ [c]) s'
  end.

(** [os.path.basename(p)] *)
Definition os_path_basename (p : string) : string :=
  PyStr.of_chars (after_last_slash [] (PyStr.chars p)).

Definition endswith_slash (p : string) : bool :=
  match last (PyStr.chars p) with
  | Some c => PyStr.eqb_char c "/"
  | None => false
  end.

Definition startswith_slash (p : string) : bool :=
  match p with
  | String c _ => PyStr.eqb_char c "/"
  | EmptyString => false
  end.

(** [os.path.join(a, *ps)] *)
Definition os_path_join (a : string) (ps : list string) : string :=
  fold_left
    (λ path b,
       if startswith_slash b then b
       else if negb (PyStr.truthy path) || endswith_slash path then path +:+ b
       else path +:+ "/" +:+ b)
    ps a.

(** ** source_app.py, the project name *)

(** What [subprocess.run] did: the process ended with a return code and a
    standard output, or the call raised one of the exceptions the clause
    catches ([TimeoutExpired], [FileNotFoundError], [OSError]). *)
Inductive git_outcome :=
| GitCompleted (returncode : Z) (stdout : string)
| GitFailed.

(** [getcwd] is what [os.getcwd()] returns, [git cwd] what
    [git remote get-url origin] does in the directory [cwd]. *)
Definition get_source_app (env : environ) (getcwd : string)
    (git : string → git_outcome) : string :=
  let cwd := default getcwd (env !! "CLAUDE_PROJECT_DIR") in
  let from_git :=
    match git cwd with
    | GitCompleted returncode stdout =>
        if bool_decide (returncode = 0) && PyStr.truthy (PyStr.strip stdout) then
          let url := PyStr.strip stdout in
          let repo_name := str_replace (last_item (str_split url "/")) ".git" "" in
          if PyStr.truthy repo_name then Some repo_name else None
        else None
    | GitFailed => None
    end in
  match from_git with
  | Some repo_name => repo_name
  | None =>
      if PyStr.truthy cwd then
        let dir_name := os_path_basename cwd in
        if PyStr.truthy dir_name then dir_name else "unknown"
      else "unknown"
  end.

(** ** stop.py, the transcript *)

(** A file as the reader sees it: absent, or present with the lines its
    iteration yields and, when the reading does not come to the end of the
    file, the exception that stops it: an [OSError] of the system (of [open]
    also, then before any line), or the [UnicodeDecodeError] of bytes that
    are no text in the encoding of the file. *)
Inductive file :=
| NoFile
| File (lines : list string) (failure : option pyexn).

Section Transcript.
Context `{Json}.

(** The loop over the lines: [chat] is the list built so far, [failure]
    what ends the iteration after the last line; the result is the list at
    the end of the loop, or at the exception that left it. *)
Fixpoint chat_lines (chat : list pyval) (lines : list string)
    (failure : option pyexn) : list pyval * option pyexn :=
  match lines with
  | [] => (chat, failure)
  | line :: lines' =>
      let line := PyStr.strip line in
      if PyStr.truthy line then
        match try_except
                (let* v := json_loads line in Returns (chat ++ [v]))
                [ ([JSONDecodeErrorC], λ _, Returns chat) ] with
        | Returns chat' => chat_lines chat' lines' failure
        | Raises e => (chat, Some e)
        end
      else chat_lines chat lines' failure
  end.

Definition read_chat_transcript (fs : string → file) (transcript_path : string)
  : result (list pyval) :=
  if PyStr.truthy transcript_path then
    match fs transcript_path with
    | File lines failure =>
        match chat_lines [] lines failure with
        | (chat, None) => Returns chat
        | (chat, Some e) =>
            if issubclass (class_of e) OSErrorC then Returns chat else Raises e
        end
    | NoFile => Returns []
    end
  else Returns [].

End Transcript.

(** ** session_start.py, the server *)

(** What running the start script did: it ended, or the call raised one of
    the exceptions the clause catches. *)
Inductive run_outcome :=
| RunCompleted
| RunFailed.

(** [net] answers the first health check, [net'] the one after the script
    has run and the pause; [path_exists] is [os.path.exists]. *)
Definition ensure_server_running (env : environ) (net : network)
    (path_exists : string → bool) (run : list string → run_outcome)
    (net' : network) : result bool :=
  let* healthy := check_server_health env net in
  if healthy then Returns true
  else
    let plugin_root := default "" (env !! "CLAUDE_PLUGIN_ROOT") in
    if negb (PyStr.truthy plugin_root) then Returns false
    else
      let ensure_script :=
        os_path_join plugin_root ["scripts"; "ensure-server.sh"] in
      if path_exists ensure_script then
        match run ["bash"; ensure_script] with
        | RunCompleted =>
            try_except (check_server_health env net')
                       [ ([OSErrorC], λ _, Returns false) ]
        | RunFailed => Returns false
        end
      else Returns false.

(** ** pre_tool_use.py *)

(** An exception no clause of the script catches: the interpreter prints
    the traceback and the process ends with status 1. *)
Inductive uncaught :=
| AttributeError
| Propagated (e : pyexn).

Inductive ending :=
| Exit (code : Z)
| Traceback (e : uncaught).

(** One run of a script: the lines printed on standard error, and how it
    ended. *)
Record run_result := {
  run_stderr : list string;
  run_ending : ending;
}.

Section PreToolUse.
Context `{Json}.
(** Whether the number a [float] lexeme stands for is not zero. *)
Variable float_nonzero : string → bool.

(** Truth value of a Python value. *)
Definition truthy_val (v : pyval) : bool :=
  match v with
  | PyNone => false
  | PyBool b => b
  | PyInt z => negb (z =? 0)
  | PyFloat lexeme => float_nonzero lexeme
  | PyStr s => PyStr.truthy s
  | PyList l => match l with [] => false | _ => true end
  | PyDict items => match items with [] => false | _ => true end
  end.

(** [validate_tool_use] on arbitrary values: only a [str] equals a tool
    name, and [tool_input.get] needs a [dict]. *)
Definition validate_call (tool_name tool_input : pyval) : uncaught + verdict :=
  match tool_name with
  | PyStr name =>
      if bool_decide (name ∈ "Bash" :: FILE_TOOLS) then
        match tool_input with
        | PyDict d =>
            match validate_tool_use name d with
            | Returns v => inr v
            | Raises e => inl (Propagated e)
            end
        | _ => inl AttributeError
        end
      else inr (true, None)
  | _ => inr (true, None)
  end.

(** [str(x)] of the reason, in the f-string. *)
Definition str_reason (block_reason : option string) : string :=
  default "None" block_reason.

Definition error_response (block_reason : option string) : pyval :=
  PyDict
    [ ("decision", PyStr "deny");
      ("reason", from_option PyStr PyNone block_reason);
      ("systemMessage",
       PyStr ("Tool use blocked by observability plugin: "
              +:+ str_reason block_reason)) ].

Definition pre_tool_use_main (stdin : string) : run_result :=
  match read_stdin_json stdin with
  | Raises e => {| run_stderr := []; run_ending := Traceback (Propagated e) |}
  | Returns (warnings, hook_data) =>
      if negb (truthy_val hook_data) then
        {| run_stderr := warnings; run_ending := Exit 0 |}
      else
        match hook_data with
        | PyDict d =>
            let tool_name := dict_get d "tool_name" (PyStr "") in
            let tool_input := dict_get d "tool_input" (PyDict []) in
            match validate_call tool_name tool_input with
            | inl e => {| run_stderr := warnings; run_ending := Traceback e |}
            | inr (is_allowed, block_reason) =>
                if negb is_allowed then
                  {| run_stderr :=
                       warnings ++ [json_dumps (error_response block_reason)];
                     run_ending := Exit 2 |}
                else {| run_stderr := warnings; run_ending := Exit 0 |}
            end
        | _ => {| run_stderr := warnings; run_ending := Traceback AttributeError |}
        end
  end.

End PreToolUse.

(** The path of the start script under the plugin root. *)
Definition ensure_script (root : string) : string :=
  (if endswith_slash root then root else root +:+ "/")
  +:+ "scripts/ensure-server.sh".

(** The start script runs: [CLAUDE_PLUGIN_ROOT] is set and not empty, the
    script under it is present, and its run completed. *)
Definition script_runs (env : environ) (path_exists : string → bool)
    (run : list string → run_outcome) : Prop :=
  ∃ root, env !! "CLAUDE_PLUGIN_ROOT" = Some root ∧ root ≠ "" ∧
          path_exists (ensure_script root) = true ∧
          run ["bash"; ensure_script root] = RunCompleted.

(** * Properties *)

(** ** Strings as lists of characters *)

Lemma chars_of_chars (l : list ascii) : PyStr.chars (PyStr.of_chars l) = l.
Proof. apply String.list_ascii_of_string_of_list_ascii. Qed.

Lemma of_chars_chars (s : string) : PyStr.of_chars (PyStr.chars s) = s.
Proof. apply String.string_of_list_ascii_of_string. Qed.

Lemma chars_app (a b : string) :
  PyStr.chars (a +:+ b) = PyStr.chars a ++ PyStr.chars b.
Proof.
  unfold PyStr.chars. induction a as [|c a IH]; [done|].
  change (String c a +:+ b) with (String c (a +:+ b)). simpl. by rewrite IH.
Qed.

Lemma of_chars_app (a b : list ascii) :
  PyStr.of_chars (a ++ b) = PyStr.of_chars a +:+ PyStr.of_chars b.
Proof.
  unfold PyStr.of_chars. induction a as [|c a IH]; [done|].
  simpl. rewrite IH. reflexivity.
Qed.

Lemma chars_inj (a b : string) : PyStr.chars a = PyStr.chars b → a = b.
Proof. intros E. by rewrite <- (of_chars_chars a), E, of_chars_chars. Qed.

Lemma chars_length (s : string) : length (PyStr.chars s) = String.length s.
Proof. induction s as [|c s IH]; simpl; [done|]. by rewrite <- IH. Qed.

Lemma eqb_char_true (a b : ascii) : PyStr.eqb_char a b = true ↔ a = b.
Proof. unfold PyStr.eqb_char. apply bool_decide_eq_true. Qed.

(** ** What a compiled pattern matches *)

Lemma match_here_many_cons f a re c s :
  Re.match_here f (Re.Many a :: re) (c :: s) =
  Re.atom_match f a c && (Re.match_here f (Re.Many a :: re) s || Re.match_here f re s).
Proof. reflexivity. Qed.

Lemma match_here_many_run f a re cs : ∀ c s,
  Re.atom_match f a c = true →
  Forall (λ x, Re.atom_match f a x = true) cs →
  Re.match_here f re s = true →
  Re.match_here f (Re.Many a :: re) (c :: cs ++ s) = true.
Proof.
  induction cs as [|x cs IH]; intros c s Hc Hcs Hs;
    rewrite match_here_many_cons, Hc; apply orb_true_iff.
  - by right.
  - left. inversion Hcs; subst. by apply IH.
Qed.

Lemma match_here_complete f re m rest :
  matches f re m rest → Re.match_here f re (m ++ rest) = true.
Proof.
  induction 1 as [rest|re m rest Hend _ IH|a re c m rest Hc _ IH
                 |a re c cs m rest Hc Hcs _ IH].
  - reflexivity.
  - simpl. by rewrite Hend, IH.
  - simpl. by rewrite Hc, IH.
  - change ((c :: cs ++ m) ++ rest) with (c :: (cs ++ m) ++ rest).
    rewrite <- app_assoc. by apply match_here_many_run.
Qed.

Lemma match_here_sound f re : ∀ s,
  Re.match_here f re s = true → ∃ m rest, s = m ++ rest ∧ matches f re m rest.
Proof.
  induction re as [|n re IH]; intros s Hs.
  - exists [], s. split; [done|constructor].
  - destruct n as [a|a|].
    + destruct s as [|c s]; [done|]. simpl in Hs.
      apply andb_true_iff in Hs as [Hc Hs].
      destruct (IH _ Hs) as (m & rest & -> & Hm).
      exists (c :: m), rest. split; [done|]. by constructor.
    + induction s as [|c s IHs]; [done|].
      rewrite match_here_many_cons in Hs.
      apply andb_true_iff in Hs as [Hc Hs].
      apply orb_true_iff in Hs as [Hs|Hs].
      * destruct (IHs Hs) as (m & rest & -> & Hm).
        inversion Hm as [| | |a' re' c' cs m' rest' Hc' Hcs Hm' E1 E2 E3]; subst.
        exists (c :: (c' :: cs) ++ m'), rest. split; [done|].
        constructor; [done| |done]. by constructor.
      * destruct (IH _ Hs) as (m & rest & -> & Hm).
        exists (c :: [] ++ m), rest. split; [done|]. by constructor.
    + simpl in Hs. apply andb_true_iff in Hs as [He Hs].
      destruct (IH _ Hs) as (m & rest & -> & Hm).
      exists m, rest. split; [done|]. by constructor.
Qed.

Lemma search_from_spec f re s :
  Re.search_from f re s = true ↔
  ∃ pre m rest, s = pre ++ m ++ rest ∧ matches f re m rest.
Proof.
  split.
  - induction s as [|c s IH]; simpl; intros Hs.
    + rewrite orb_false_r in Hs.
      destruct (match_here_sound _ _ _ Hs) as (m & rest & E & Hm).
      by exists [], m, rest.
    + apply orb_true_iff in Hs as [Hs|Hs].
      * destruct (match_here_sound _ _ _ Hs) as (m & rest & E & Hm).
        by exists [], m, rest.
      * destruct (IH Hs) as (pre & m & rest & -> & Hm).
        by exists (c :: pre), m, rest.
  - intros (pre & m & rest & -> & Hm).
    induction pre as [|c pre IH].
    + simpl. destruct (m ++ rest) eqn:E; simpl;
        rewrite <- E, (match_here_complete _ _ _ _ Hm); done.
    + change ((c :: pre) ++ m ++ rest) with (c :: pre ++ m ++ rest).
      simpl. rewrite IH. apply orb_true_r.
Qed.

Lemma matches_app f re1 re2 m1 m2 rest :
  matches f re1 m1 (m2 ++ rest) → matches f re2 m2 rest →
  matches f (re1 ++ re2) (m1 ++ m2) rest.
Proof.
  intros H1 H2. remember (m2 ++ rest) as r eqn:Er.
  induction H1 as [r|re m r Hend _ IH|a re c m r Hc _ IH
                  |a re c cs m r Hc Hcs _ IH]; subst r; simpl.
  - done.
  - constructor; [by rewrite <- app_assoc|by apply IH].
  - constructor; [done|by apply IH].
  - rewrite <- app_assoc. constructor; [done|done|by apply IH].
Qed.

Lemma matches_app_inv f re1 : ∀ re2 m rest,
  matches f (re1 ++ re2) m rest →
  ∃ m1 m2, m = m1 ++ m2 ∧ matches f re1 m1 (m2 ++ rest) ∧ matches f re2 m2 rest.
Proof.
  induction re1 as [|n re1 IH]; intros re2 m rest Hm; simpl in Hm.
  - exists [], m. repeat split; [constructor|done].
  - inversion Hm as [|re m' rest' Hend Hm' |a re c m' rest' Hc Hm'
                    |a re c cs m' rest' Hc Hcs Hm']; subst.
    + destruct (IH _ _ _ Hm') as (m1 & m2 & -> & H1 & H2).
      exists m1, m2. repeat split; [|done].
      constructor; [by rewrite app_assoc|done].
    + destruct (IH _ _ _ Hm') as (m1 & m2 & -> & H1 & H2).
      exists (c :: m1), m2. repeat split; [|done]. by constructor.
    + destruct (IH _ _ _ Hm') as (m1 & m2 & -> & H1 & H2).
      exists (c :: cs ++ m1), m2. repeat split; [|by constructor|done].
      simpl. by rewrite <- app_assoc.
Qed.

(** ** The shapes of the patterns in the tables *)

Lemma matches_lit_nodes f w : ∀ m rest,
  matches f (lit_nodes w) m rest ↔
  Forall2 (λ x p, Re.atom_match f (Re.Lit p) x = true) m w.
Proof.
  induction w as [|p w IH]; intros m rest; simpl; split.
  - inversion 1. constructor.
  - inversion 1. constructor.
  - inversion 1; subst. constructor; [done|]. by eapply IH.
  - inversion 1; subst. constructor; [done|]. by apply IH.
Qed.

Lemma lit_match_text_eq f m w :
  Forall2 (λ x p, Re.atom_match f (Re.Lit p) x = true) m w ↔
  text_eq f (PyStr.of_chars m) (PyStr.of_chars w).
Proof.
  unfold text_eq, ci_eq. rewrite !chars_of_chars.
  destruct f; simpl.
  - split.
    + induction 1 as [|x p m w Hx _ IH]; [done|].
      apply eqb_char_true in Hx. simpl. by rewrite Hx, IH.
    + intros E. apply (f_equal PyStr.chars) in E. rewrite !chars_of_chars in E.
      subst w. induction m; constructor; [by apply eqb_char_true|done].
  - split.
    + induction 1 as [|x p m w Hx _ IH]; [done|].
      apply eqb_char_true in Hx. simpl. by rewrite Hx, IH.
    + revert w. induction m as [|x m IH]; intros [|p w] E; try done.
      simpl in E. injection E as Hx E.
      constructor; [by apply eqb_char_true|by apply IH].
Qed.

Lemma matches_lit f w m rest :
  matches f (lit_re w) m rest ↔ text_eq f (PyStr.of_chars m) w.
Proof.
  unfold lit_re. rewrite matches_lit_nodes, lit_match_text_eq.
  by rewrite of_chars_chars.
Qed.

Lemma matches_many_space f re m rest :
  matches f (Re.Many Re.Space :: re) m rest ↔
  ∃ ws m', m = ws ++ m' ∧ blank (PyStr.of_chars ws) ∧ matches f re m' rest.
Proof.
  split.
  - inversion 1 as [| | |a re' c cs m' rest' Hc Hcs Hm]; subst.
    exists (c :: cs), m'. split; [done|]. split; [|done].
    split; [done|]. rewrite chars_of_chars. by constructor.
  - intros (ws & m' & -> & [Hne Hws] & Hm).
    rewrite chars_of_chars in Hws.
    destruct ws as [|c cs]; [done|]. inversion Hws; subst.
    change ((c :: cs) ++ m') with (c :: cs ++ m'). by constructor.
Qed.

Lemma matches_end_only f m rest :
  matches f [Re.End] m rest ↔ m = [] ∧ Re.at_end rest = true.
Proof.
  split.
  - inversion 1 as [|re m' rest' Hend Hm| |]; subst. inversion Hm; subst. done.
  - intros [-> Hend]. constructor; [done|constructor].
Qed.

Lemma search_rm_regex flags target command :
  Re.search_from Re.IGNORECASE (rm_regex flags target) (PyStr.chars command) = true
  ↔ recursive_force_delete flags target command.
Proof.
  rewrite search_from_spec. unfold rm_regex. split.
  - intros (pre & m & post & E & Hm).
    apply matches_app_inv in Hm as (rm & m1 & -> & Hrm & Hm).
    apply matches_many_space in Hm as (ws1 & m2 & -> & Hws1 & Hm).
    apply matches_app_inv in Hm as (opt & m3 & -> & Hopt & Hm).
    apply matches_many_space in Hm as (ws2 & tgt & -> & Hws2 & Hm).
    apply matches_lit in Hrm, Hopt, Hm.
    exists (PyStr.of_chars pre), (PyStr.of_chars rm), (PyStr.of_chars ws1),
      (PyStr.of_chars opt), (PyStr.of_chars ws2), (PyStr.of_chars tgt),
      (PyStr.of_chars post).
    split; [|done].
    apply chars_inj. rewrite E, !chars_app, !chars_of_chars.
    by rewrite <- !app_assoc.
  - intros (pre & rm & ws1 & opt & ws2 & tgt & post & -> & Hrm & Hws1 & Hopt
            & Hws2 & Htgt).
    exists (PyStr.chars pre),
      (PyStr.chars rm ++ PyStr.chars ws1 ++ PyStr.chars opt ++ PyStr.chars ws2
       ++ PyStr.chars tgt), (PyStr.chars post).
    split; [rewrite !chars_app; by rewrite <- !app_assoc|].
    apply matches_app; [apply matches_lit; by rewrite of_chars_chars|].
    apply matches_many_space. eexists _, _. split; [done|].
    split; [by rewrite of_chars_chars|].
    apply matches_app; [apply matches_lit; by rewrite of_chars_chars|].
    apply matches_many_space. eexists _, _. split; [done|].
    split; [by rewrite of_chars_chars|].
    apply matches_lit. by rewrite of_chars_chars.
Qed.

Lemma search_lit f w s :
  Re.search_from f (lit_re w) (PyStr.chars s) = true ↔
  ∃ pre mid post, s = pre +:+ mid +:+ post ∧ text_eq f mid w.
Proof.
  rewrite search_from_spec. split.
  - intros (pre & m & post & E & Hm). apply matches_lit in Hm.
    exists (PyStr.of_chars pre), (PyStr.of_chars m), (PyStr.of_chars post).
    split; [|done]. apply chars_inj. by rewrite E, !chars_app, !chars_of_chars.
  - intros (pre & mid & post & -> & Hm).
    exists (PyStr.chars pre), (PyStr.chars mid), (PyStr.chars post).
    split; [by rewrite !chars_app|]. apply matches_lit. by rewrite of_chars_chars.
Qed.

Lemma search_lit_nocase w s :
  Re.search_from Re.IGNORECASE (lit_re w) (PyStr.chars s) = true ↔ contains_ci w s.
Proof. apply search_lit. Qed.

Lemma search_lit_exact w s :
  Re.search_from Re.NOFLAG (lit_re w) (PyStr.chars s) = true ↔ contains w s.
Proof.
  rewrite search_lit. unfold contains, text_eq. simpl. split.
  - intros (pre & mid & post & -> & ->). by exists pre, post.
  - intros (pre & post & ->). by exists pre, w, post.
Qed.

Lemma lower_LF c : PyStr.lower c = "010"%char → c = "010"%char.
Proof. destruct c as [[] [] [] [] [] [] [] []]; vm_compute; congruence. Qed.

Lemma at_end_cases rest : Re.at_end rest = true ↔ rest = [] ∨ rest = ["010"%char].
Proof.
  destruct rest as [|c [|d rest]]; simpl.
  - split; auto.
  - rewrite eqb_char_true. split; [intros ->; by right|].
    intros [E|E]; [done|by injection E].
  - split; [done|]. intros [E|E]; done.
Qed.

Lemma search_suffix w s :
  Re.search_from Re.IGNORECASE (lit_re w ++ [Re.End]) (PyStr.chars s) = true ↔
  matches_suffix w s.
Proof.
  rewrite search_from_spec. unfold matches_suffix, ends_with_ci. split.
  - intros (pre & m & post & E & Hm).
    apply matches_app_inv in Hm as (m1 & m2 & -> & Hm1 & Hm2).
    apply matches_end_only in Hm2 as [-> Hend]. apply matches_lit in Hm1.
    rewrite app_nil_r in E.
    apply at_end_cases in Hend as [->| ->].
    + left. exists (PyStr.of_chars pre), (PyStr.of_chars m1). split; [|done].
      apply chars_inj. by rewrite E, !chars_app, !chars_of_chars, app_nil_r.
    + right. exists (PyStr.of_chars pre), (PyStr.of_chars m1 +:+ LF). split.
      * apply chars_inj. by rewrite E, !chars_app, !chars_of_chars.
      * unfold ci_eq in *. simpl in Hm1. rewrite !chars_app, !map_app.
        by rewrite Hm1.
  - intros [(pre & mid & -> & Hm)|(pre & mid & -> & Hm)].
    + exists (PyStr.chars pre), (PyStr.chars mid), []. split.
      { by rewrite chars_app, app_nil_r. }
      rewrite <- (app_nil_r (PyStr.chars mid)).
      apply matches_app; [apply matches_lit; by rewrite of_chars_chars|].
      by apply matches_end_only.
    + unfold ci_eq in Hm. rewrite chars_app, map_app in Hm.
      destruct (PyStr.chars mid) as [|x xs] eqn:Emid using rev_ind.
      { apply (f_equal length) in Hm. rewrite length_app in Hm. simpl in Hm. lia. }
      clear IHxs. rewrite map_app in Hm. simpl in Hm.
      apply app_inj_tail in Hm as [Hm Hx]. apply lower_LF in Hx. subst x.
      exists (PyStr.chars pre), xs, ["010"%char]. split.
      { by rewrite chars_app, Emid. }
      rewrite <- (app_nil_r xs).
      apply matches_app; [apply matches_lit|by apply matches_end_only].
      unfold text_eq, ci_eq. simpl. by rewrite chars_of_chars.
Qed.

(** ** The tables, pattern by pattern *)

Lemma rm_shapes_patterns : map fst rm_shapes = DANGEROUS_RM_PATTERNS.
Proof. reflexivity. Qed.

Lemma rm_shapes_compile :
  Forall (λ e, Re.compile e.1 = Some (rm_regex e.2.1 e.2.2)) rm_shapes.
Proof. repeat constructor. Qed.

Lemma rm_shapes_complete flags target :
  flags ∈ FLAG_ORDERS → target ∈ RM_TARGETS →
  ∃ pattern, (pattern, (flags, target)) ∈ rm_shapes.
Proof.
  unfold FLAG_ORDERS, RM_TARGETS, rm_shapes. rewrite !elem_of_cons, !elem_of_nil.
  intros [->|[->|[]]] [->|[->|[->|[->|[]]]]]; eexists; solve [repeat constructor].
Qed.

Lemma safe_compile :
  map Re.compile SAFE_RM_DIRECTORIES = map (λ d, Some (lit_re d)) SAFE_NAMES.
Proof. reflexivity. Qed.

Lemma exceptions_compile :
  map Re.compile ALLOWED_SENSITIVE_PATTERNS =
  map (λ w, Some (suffix_re w)) EXCEPTION_SUFFIXES.
Proof. reflexivity. Qed.

Lemma sensitive_compile :
  map Re.compile SENSITIVE_FILE_PATTERNS =
  map (λ w, Some (suffix_re w)) SENSITIVE_SUFFIXES
  ++ map (λ w, Some (lit_re w)) KEY_STEMS.
Proof. reflexivity. Qed.

(** Every pattern of the four tables is inside the fragment. *)
Lemma tables_compile :
  Forall (λ p, is_Some (Re.compile p))
    (DANGEROUS_RM_PATTERNS ++ SAFE_RM_DIRECTORIES
     ++ SENSITIVE_FILE_PATTERNS ++ ALLOWED_SENSITIVE_PATTERNS).
Proof. repeat constructor; by eexists. Qed.

Lemma existsb_search f s : ∀ pats res,
  map Re.compile pats = map Some res →
  existsb (λ p, Re.search p s f) pats =
  existsb (λ re, Re.search_from f re (PyStr.chars s)) res.
Proof.
  induction pats as [|p pats IH]; intros [|re res] E; try done.
  simpl in E. injection E as Ep E. simpl. unfold Re.search at 1.
  rewrite Ep. f_equal. by apply IH.
Qed.

Lemma existsb_elem_of {A} (p : A → bool) (l : list A) :
  existsb p l = true ↔ ∃ x, x ∈ l ∧ p x = true.
Proof.
  rewrite existsb_exists. by setoid_rewrite <- list_elem_of_In.
Qed.

(** ** The two checkers against their descriptions *)

Lemma is_safe_spec command : is_safe command = true ↔ in_sandbox command.
Proof.
  unfold is_safe, in_sandbox.
  rewrite (existsb_search _ _ _ (map lit_re SAFE_NAMES))
    by (rewrite safe_compile; by rewrite map_map).
  rewrite existsb_elem_of. split.
  - intros (re & Hre & Hs). apply list_elem_of_fmap in Hre as (d & -> & Hd).
    exists d. split; [done|]. by apply search_lit_exact.
  - intros (d & Hd & Hc). exists (lit_re d). split.
    + apply list_elem_of_fmap. by exists d.
    + by apply search_lit_exact.
Qed.

Lemma search_dangerous pattern flags target command :
  (pattern, (flags, target)) ∈ rm_shapes →
  Re.search pattern command Re.IGNORECASE = true ↔
  recursive_force_delete flags target command.
Proof.
  intros Hin.
  pose proof (proj1 (Forall_forall _ _) rm_shapes_compile _ Hin) as E.
  simpl in E. unfold Re.search. rewrite E. apply search_rm_regex.
Qed.

Lemma dangerous_command_spec command :
  dangerous_command command ↔
  ∃ pattern, pattern ∈ DANGEROUS_RM_PATTERNS ∧
             Re.search pattern command Re.IGNORECASE = true.
Proof.
  rewrite <- rm_shapes_patterns. split.
  - intros (flags & target & Hf & Ht & Hc).
    destruct (rm_shapes_complete _ _ Hf Ht) as [pattern Hin].
    exists pattern. split.
    + apply list_elem_of_fmap. by exists (pattern, (flags, target)).
    + by apply (search_dangerous _ _ _ _ Hin).
  - intros (pattern & Hin & Hs).
    apply list_elem_of_fmap in Hin as ([p [flags target]] & -> & Hin).
    exists flags, target.
    assert (flags ∈ FLAG_ORDERS ∧ target ∈ RM_TARGETS) as [??].
    { clear Hs. unfold rm_shapes, FLAG_ORDERS, RM_TARGETS in *.
      rewrite !elem_of_cons, elem_of_nil in Hin.
      repeat (destruct Hin as [Hin|Hin]; [injection Hin as -> -> ->; set_solver|]).
      done. }
    split_and!; [done..|]. by apply (search_dangerous _ _ _ _ Hin).
Qed.

Lemma exception_spec file_path :
  existsb (λ pattern, Re.search pattern file_path Re.IGNORECASE)
          ALLOWED_SENSITIVE_PATTERNS = true ↔
  exception_path file_path.
Proof.
  rewrite (existsb_search _ _ _ (map suffix_re EXCEPTION_SUFFIXES))
    by (rewrite exceptions_compile; by rewrite map_map).
  rewrite existsb_elem_of. unfold exception_path. split.
  - intros (re & Hre & Hs). apply list_elem_of_fmap in Hre as (w & -> & Hw).
    exists w. split; [done|]. by apply search_suffix.
  - intros (w & Hw & Hs). exists (suffix_re w). split.
    + apply list_elem_of_fmap. by exists w.
    + by apply search_suffix.
Qed.

Lemma sensitive_spec file_path :
  sensitive_path file_path →
  existsb (λ pattern, Re.search pattern file_path Re.IGNORECASE)
          SENSITIVE_FILE_PATTERNS = true.
Proof.
  intros Hs.
  rewrite (existsb_search _ _ _
             (map suffix_re SENSITIVE_SUFFIXES ++ map lit_re KEY_STEMS))
    by (rewrite sensitive_compile, map_app; by rewrite !map_map).
  rewrite existsb_app. apply orb_true_iff.
  destruct Hs as [(w & Hw & He)|(w & Hw & Hc)]; [left|right];
    apply existsb_elem_of.
  - exists (suffix_re w). split; [apply list_elem_of_fmap; by exists w|].
    apply search_suffix. by left.
  - exists (lit_re w). split; [apply list_elem_of_fmap; by exists w|].
    by apply search_lit_nocase.
Qed.

Lemma dangerous_loop_safe command : ∀ patterns,
  is_safe command = true → dangerous_loop patterns command = (false, None).
Proof.
  intros patterns Hs. induction patterns as [|p ps IH]; simpl; [done|].
  rewrite Hs. simpl. by destruct (Re.search p command Re.IGNORECASE).
Qed.

Lemma dangerous_loop_miss command : ∀ patterns,
  (∀ p, p ∈ patterns → Re.search p command Re.IGNORECASE = false) →
  dangerous_loop patterns command = (false, None).
Proof.
  induction patterns as [|p ps IH]; intros Hm; simpl; [done|].
  rewrite (Hm p) by set_solver. simpl. apply IH. intros q Hq. apply Hm. set_solver.
Qed.

Lemma dangerous_loop_hit command : ∀ patterns,
  is_safe command = false →
  (∃ p, p ∈ patterns ∧ Re.search p command Re.IGNORECASE = true) →
  ∃ p, p ∈ patterns ∧ Re.search p command Re.IGNORECASE = true ∧
       dangerous_loop patterns command = (true, Some (dangerous_reason p)).
Proof.
  intros patterns Hs. induction patterns as [|p ps IH]; intros (q & Hq & Hm).
  - by apply elem_of_nil in Hq.
  - simpl. rewrite Hs. simpl.
    destruct (Re.search p command Re.IGNORECASE) eqn:Hp.
    + exists p. split_and!; [set_solver|done..].
    + destruct IH as (r & Hr & Hrm & E).
      { exists q. split; [|done]. apply elem_of_cons in Hq as [->|Hq]; [|done].
        congruence. }
      exists r. split_and!; [set_solver|done..].
Qed.

Lemma dangerous_loop_cases command : ∀ patterns,
  dangerous_loop patterns command = (false, None) ∨
  ∃ p, p ∈ patterns ∧
       dangerous_loop patterns command = (true, Some (dangerous_reason p)).
Proof.
  induction patterns as [|p ps IH]; simpl; [by left|].
  assert (dangerous_loop ps command = (false, None) ∨
          ∃ q, q ∈ p :: ps ∧
               dangerous_loop ps command = (true, Some (dangerous_reason q)))
    as IH'.
  { destruct IH as [IH|(q & Hq & IH)]; [by left|right].
    exists q. split; [by right|done]. }
  destruct (Re.search p command Re.IGNORECASE); [|exact IH'].
  destruct (negb (is_safe command)); [|exact IH'].
  right. exists p. split; [by left|done].
Qed.

(** ** [validate_tool_use], tool by tool *)

Lemma validate_bash tool_input :
  validate_tool_use "Bash" tool_input =
  let* r := is_dangerous_rm_command (dict_get tool_input "command" (PyStr "")) in
  Returns (verdict_of r).
Proof.
  unfold validate_tool_use. simpl.
  destruct (is_dangerous_rm_command _) as [[[] r]|e]; reflexivity.
Qed.

Lemma validate_file tool_name tool_input :
  tool_name ∈ FILE_TOOLS →
  validate_tool_use tool_name tool_input =
  let* r := is_sensitive_file_access (dict_get tool_input "file_path" (PyStr "")) in
  Returns (verdict_of r).
Proof.
  intros Hin. unfold validate_tool_use.
  rewrite (bool_decide_eq_true_2 _ Hin).
  rewrite bool_decide_eq_false_2.
  2:{ intros ->. unfold FILE_TOOLS in Hin. set_solver. }
  simpl. destruct (is_sensitive_file_access _) as [[[] r]|e]; reflexivity.
Qed.

Lemma validate_other tool_name tool_input :
  tool_name ∉ "Bash" :: FILE_TOOLS →
  validate_tool_use tool_name tool_input = Returns (true, None).
Proof.
  intros Hout. unfold validate_tool_use.
  rewrite !bool_decide_eq_false_2; [done| |].
  - intros Hin. apply Hout. by right.
  - intros ->. apply Hout. by left.
Qed.

Lemma dict_get_found d key dflt v :
  dict_lookup d key = Some v → dict_get d key dflt = v.
Proof. unfold dict_get. by intros ->. Qed.

Lemma dict_get_missing d key dflt :
  dict_lookup d key = None → dict_get d key dflt = dflt.
Proof. unfold dict_get. by intros ->. Qed.

Lemma empty_matches_nothing :
  Forall (λ p, ∀ f, Re.search p "" f = false) ALL_PATTERNS.
Proof. repeat constructor; by intros []. Qed.

Lemma is_dangerous_str command :
  is_dangerous_rm_command (PyStr command) =
  Returns (dangerous_loop DANGEROUS_RM_PATTERNS command).
Proof. reflexivity. Qed.

Lemma is_sensitive_str file_path :
  is_sensitive_file_access (PyStr file_path) = Returns (sensitive_check file_path).
Proof.
  cbv [is_sensitive_file_access sensitive_check expect_str bind].
  by repeat destruct (existsb _ _).
Qed.

Lemma validate_bash_str tool_input command :
  dict_lookup tool_input "command" = Some (PyStr command) →
  validate_tool_use "Bash" tool_input =
  Returns (verdict_of (dangerous_loop DANGEROUS_RM_PATTERNS command)).
Proof.
  intros Hc. by rewrite validate_bash, (dict_get_found _ _ _ _ Hc), is_dangerous_str.
Qed.

Lemma validate_file_str tool_name tool_input file_path :
  tool_name ∈ FILE_TOOLS →
  dict_lookup tool_input "file_path" = Some (PyStr file_path) →
  validate_tool_use tool_name tool_input =
  Returns (verdict_of (sensitive_check file_path)).
Proof.
  intros Ht Hp.
  by rewrite (validate_file _ _ Ht), (dict_get_found _ _ _ _ Hp), is_sensitive_str.
Qed.

(** ** The validator's claims *)

(** C2. A command with a recursive forced delete of [/], [~], [*] or [..]
    (flags [-rf] or [-fr], letters in either case) is blocked, with a reason
    that names a pattern of the table that matches it, unless one of the
    sandbox names occurs as written anywhere in the command, and then it is
    allowed. *)
Theorem dangerous_rm_blocked_unless_sandbox (command : string) (tool_input : dict) :
  dict_lookup tool_input "command" = Some (PyStr command) →
  dangerous_command command →
  (in_sandbox command →
   validate_tool_use "Bash" tool_input = Returns (true, None)) ∧
  (¬ in_sandbox command →
   ∃ pattern,
     pattern ∈ DANGEROUS_RM_PATTERNS ∧
     Re.search pattern command Re.IGNORECASE = true ∧
     validate_tool_use "Bash" tool_input =
     Returns (false,
              Some ("Dangerous rm command detected: matches pattern '"
                    +:+ pattern +:+ "'"))).
Proof.
  intros Hcmd Hd. rewrite (validate_bash_str _ _ Hcmd). split.
  - intros Hs. apply is_safe_spec in Hs.
    by rewrite (dangerous_loop_safe _ _ Hs).
  - intros Hs. apply dangerous_command_spec in Hd.
    assert (is_safe command = false) as Hf.
    { destruct (is_safe command) eqn:E; [|done]. by apply is_safe_spec in E. }
    destruct (dangerous_loop_hit _ _ Hf Hd) as (p & Hp & Hm & E).
    exists p. split_and!; [done..|]. by rewrite E.
Qed.

Lemma dangerous_rm_blocked_unless_sandbox_witness :
  (dangerous_command "rm -rf /" ∧ ¬ in_sandbox "rm -rf /" ∧
   ∃ pattern,
     pattern ∈ DANGEROUS_RM_PATTERNS ∧
     Re.search pattern "rm -rf /" Re.IGNORECASE = true ∧
     validate_tool_use "Bash" (bash_input "rm -rf /") =
     Returns (false,
              Some ("Dangerous rm command detected: matches pattern '"
                    +:+ pattern +:+ "'"))) ∧
  (dangerous_command "rm -rf /tmp/test" ∧ in_sandbox "rm -rf /tmp/test" ∧
   validate_tool_use "Bash" (bash_input "rm -rf /tmp/test") = Returns (true, None)).
Proof.
  assert (∀ c, Re.search "rm\s+-rf\s+/" c Re.IGNORECASE = true →
               dangerous_command c) as Hd.
  { intros c Hc. apply dangerous_command_spec. exists "rm\s+-rf\s+/".
    split; [repeat constructor|exact Hc]. }
  assert (¬ in_sandbox "rm -rf /") as Hout.
  { intros Hs. apply is_safe_spec in Hs. vm_compute in Hs. discriminate Hs. }
  assert (in_sandbox "rm -rf /tmp/test") as Hin.
  { exists "/tmp/". split; [repeat constructor|]. by exists "rm -rf ", "test". }
  split.
  - split; [apply Hd; reflexivity|]. split; [exact Hout|].
    apply (dangerous_rm_blocked_unless_sandbox "rm -rf /" (bash_input "rm -rf /"));
      [reflexivity|apply Hd; reflexivity|exact Hout].
  - split; [apply Hd; reflexivity|]. split; [exact Hin|].
    apply (dangerous_rm_blocked_unless_sandbox
             "rm -rf /tmp/test" (bash_input "rm -rf /tmp/test"));
      [reflexivity|apply Hd; reflexivity|exact Hin].
Defined.

(** X1. The override, both ways: a Bash command is allowed exactly when it
    has no dangerous delete or a sandbox name occurs in it; a command
    without such a delete is never blocked. *)
Lemma bash_allowed_iff (command : string) (tool_input : dict) :
  dict_lookup tool_input "command" = Some (PyStr command) →
  validate_tool_use "Bash" tool_input = Returns (true, None) ↔
  ¬ dangerous_command command ∨ in_sandbox command.
Proof.
  intros Hcmd. rewrite (validate_bash_str _ _ Hcmd).
  destruct (is_safe command) eqn:Hs.
  - rewrite (dangerous_loop_safe _ _ Hs). split; [|done].
    intros _. right. by apply is_safe_spec.
  - assert (¬ in_sandbox command) as Hout.
    { intros Hin. apply is_safe_spec in Hin. congruence. }
    destruct (existsb (λ p, Re.search p command Re.IGNORECASE)
                      DANGEROUS_RM_PATTERNS) eqn:Hd.
    + apply existsb_elem_of in Hd.
      destruct (dangerous_loop_hit _ _ Hs Hd) as (p & _ & _ & ->).
      split; [done|]. intros [Hnd|Hin]; [|done].
      exfalso. apply Hnd. by apply dangerous_command_spec.
    + rewrite dangerous_loop_miss.
      * split; [|done]. intros _. left. intros Hdc.
        apply dangerous_command_spec, existsb_elem_of in Hdc. congruence.
      * intros p Hp. destruct (Re.search p command Re.IGNORECASE) eqn:E; [|done].
        assert (existsb (λ p, Re.search p command Re.IGNORECASE)
                        DANGEROUS_RM_PATTERNS = true) as Hd'
          by (apply existsb_elem_of; by exists p).
        congruence.
Qed.

(** C3. For Read, Write and Edit: a path that matches one of the exception
    suffixes ([.env.sample], [.env.example], [.env.template], in any case) is
    allowed whatever else it contains; any other path that ends in one of the
    sensitive suffixes or contains [id_rsa] or [id_ed25519] (in any case) is
    blocked, with a reason that names the path. *)
Theorem sensitive_file_blocked_unless_exception
    (tool_name : string) (tool_input : dict) (file_path : string) :
  tool_name ∈ FILE_TOOLS →
  dict_lookup tool_input "file_path" = Some (PyStr file_path) →
  (exception_path file_path →
   validate_tool_use tool_name tool_input = Returns (true, None)) ∧
  (¬ exception_path file_path → sensitive_path file_path →
   validate_tool_use tool_name tool_input =
   Returns (false, Some ("Sensitive file access detected: " +:+ file_path))).
Proof.
  intros Htool Hpath.
  rewrite (validate_file_str _ _ _ Htool Hpath). unfold sensitive_check. split.
  - intros He. apply exception_spec in He. by rewrite He.
  - intros He Hs.
    destruct (existsb _ ALLOWED_SENSITIVE_PATTERNS) eqn:E.
    { by apply exception_spec in E. }
    by rewrite (sensitive_spec _ Hs).
Qed.

Lemma sensitive_file_blocked_unless_exception_witness :
  "Read" ∈ FILE_TOOLS ∧
  (¬ exception_path "/project/.ENV" ∧ sensitive_path "/project/.ENV" ∧
   validate_tool_use "Read" (file_input "/project/.ENV") =
   Returns (false,
            Some ("Sensitive file access detected: " +:+ "/project/.ENV"))) ∧
  (exception_path "id_rsa/.Env.Sample" ∧ sensitive_path "id_rsa/.Env.Sample" ∧
   validate_tool_use "Read" (file_input "id_rsa/.Env.Sample") = Returns (true, None)).
Proof.
  assert ("Read" ∈ FILE_TOOLS) as Ht by repeat constructor.
  assert (¬ exception_path "/project/.ENV") as Hne.
  { intros He. apply exception_spec in He. vm_compute in He. discriminate He. }
  assert (sensitive_path "/project/.ENV") as Hs.
  { left. exists ".env". split; [repeat constructor|].
    by exists "/project/", ".ENV". }
  assert (exception_path "id_rsa/.Env.Sample") as He.
  { exists ".env.sample". split; [repeat constructor|]. left.
    by exists "id_rsa/", ".Env.Sample". }
  assert (sensitive_path "id_rsa/.Env.Sample") as Hs'.
  { right. exists "id_rsa". split; [repeat constructor|].
    by exists "", "id_rsa", "/.Env.Sample". }
  split; [exact Ht|]. split.
  - split; [exact Hne|]. split; [exact Hs|].
    apply (sensitive_file_blocked_unless_exception
             "Read" (file_input "/project/.ENV") "/project/.ENV");
      [exact Ht|reflexivity|exact Hne|exact Hs].
  - split; [exact He|]. split; [exact Hs'|].
    apply (sensitive_file_blocked_unless_exception
             "Read" (file_input "id_rsa/.Env.Sample") "id_rsa/.Env.Sample");
      [exact Ht|reflexivity|exact He].
Defined.

(** C5. A tool other than Bash, Read, Write and Edit is allowed, with no
    reason, whatever its input holds. *)
Theorem other_tools_allowed (tool_name : string) (tool_input : dict) :
  tool_name ∉ ["Bash"; "Read"; "Write"; "Edit"] →
  validate_tool_use tool_name tool_input = Returns (true, None).
Proof. apply validate_other. Qed.

Lemma other_tools_allowed_witness :
  ("Grep" ∉ ["Bash"; "Read"; "Write"; "Edit"]) ∧
  (validate_tool_use "Grep"
     [("command", PyStr "rm -rf /"); ("file_path", PyStr ".env")]
   = Returns (true, None)).
Proof.
  assert ("Grep" ∉ ["Bash"; "Read"; "Write"; "Edit"]) as Hout.
  { apply (bool_decide_unpack _). vm_compute. exact I. }
  split; [exact Hout|]. apply (other_tools_allowed "Grep"). exact Hout.
Defined.

Lemma dangerous_reason_nonempty pattern : dangerous_reason pattern ≠ "".
Proof. done. Qed.

Lemma sensitive_reason_nonempty file_path : sensitive_reason file_path ≠ "".
Proof. done. Qed.

Lemma well_formed_iff v : well_formed v → (reason_present v ↔ v.1 = false).
Proof.
  destruct v as [[] r]; unfold well_formed, reason_present; simpl.
  - intros [[_ ->]|[? _]]; [|done]. split; [by intros (s & ? & _)|done].
  - intros [[? _]|[_ Hr]]; [done|]. by split.
Qed.

Lemma verdict_of_dangerous_loop command :
  well_formed (verdict_of (dangerous_loop DANGEROUS_RM_PATTERNS command)).
Proof.
  destruct (dangerous_loop_cases command DANGEROUS_RM_PATTERNS)
    as [->|(p & _ & ->)]; [by left|right].
  split; [done|]. eexists. split; [done|]. apply dangerous_reason_nonempty.
Qed.

Lemma verdict_of_sensitive_check file_path :
  well_formed (verdict_of (sensitive_check file_path)).
Proof.
  unfold sensitive_check. repeat destruct (existsb _ _); [by left| |by left].
  right. split; [done|]. eexists. split; [done|]. apply sensitive_reason_nonempty.
Qed.

Lemma expect_str_raises v e :
  expect_str v = Raises e → e = TypeError ∧ ∀ s, v ≠ PyStr s.
Proof. destruct v; simpl; intros E; try done; by injection E as <-. Qed.

(** C6. Whatever the tool and its input, a verdict that [validate_tool_use]
    returns has a non-empty reason exactly when it is not allowed: it is
    either (allowed, no reason) or (blocked, reason). The only call that
    returns no verdict is one whose consulted field holds something other
    than a string, which raises [TypeError]. *)
Theorem verdict_invariant (tool_name : string) (tool_input : dict) :
  match validate_tool_use tool_name tool_input with
  | Returns v =>
      (reason_present v ↔ v.1 = false) ∧
      (v.1 = true ∧ v.2 = None ∨ v.1 = false ∧ reason_present v)
  | Raises e =>
      e = TypeError ∧
      ∃ key x, relevant_field tool_name = Some key ∧
               dict_lookup tool_input key = Some x ∧ ∀ s, x ≠ PyStr s
  end.
Proof.
  assert (∀ v, well_formed v →
               (reason_present v ↔ v.1 = false) ∧ well_formed v) as Hwf.
  { intros v Hv. split; [by apply well_formed_iff|done]. }
  unfold relevant_field.
  destruct (decide (tool_name = "Bash")) as [->|Hb].
  - rewrite validate_bash.
    destruct (dict_lookup tool_input "command") as [x|] eqn:Ex;
      [rewrite (dict_get_found _ _ _ _ Ex)|rewrite (dict_get_missing _ _ _ Ex)].
    + destruct x as [| | | |s| |];
        try (cbv [is_dangerous_rm_command expect_str bind];
             split; [done|]; eexists _, _; split_and!; done).
      rewrite is_dangerous_str. cbv [bind].
      apply Hwf, verdict_of_dangerous_loop.
    + rewrite is_dangerous_str. cbv [bind].
      apply Hwf, verdict_of_dangerous_loop.
  - rewrite (bool_decide_eq_false_2 _ Hb).
    destruct (decide (tool_name ∈ FILE_TOOLS)) as [Hf|Hf].
    + rewrite (validate_file _ _ Hf), (bool_decide_eq_true_2 _ Hf).
      destruct (dict_lookup tool_input "file_path") as [x|] eqn:Ex;
        [rewrite (dict_get_found _ _ _ _ Ex)|rewrite (dict_get_missing _ _ _ Ex)].
      * destruct x as [| | | |s| |];
          try (cbv [is_sensitive_file_access expect_str bind];
               split; [done|]; eexists _, _; split_and!; done).
        rewrite is_sensitive_str. cbv [bind].
        apply Hwf, verdict_of_sensitive_check.
      * rewrite is_sensitive_str. cbv [bind].
        apply Hwf, verdict_of_sensitive_check.
    + rewrite validate_other; [apply Hwf; by left|].
      intros Hin. apply elem_of_cons in Hin as [?|?]; done.
Qed.

(** C7. When [tool_input] has no entry for the field the tool reads
    ([command] for Bash, [file_path] for Read, Write and Edit), the field
    is taken to be the empty string, the empty string matches no pattern
    of any table, and the call returns allowed. *)
Theorem missing_field_allowed (tool_name : string) (tool_input : dict) :
  (∀ key, relevant_field tool_name = Some key →
          dict_lookup tool_input key = None) →
  (∀ key, relevant_field tool_name = Some key →
          dict_get tool_input key (PyStr "") = PyStr "") ∧
  Forall (λ p, ∀ f, Re.search p "" f = false) ALL_PATTERNS ∧
  validate_tool_use tool_name tool_input = Returns (true, None).
Proof.
  intros Hmiss. split_and!.
  - intros key Hk. by apply dict_get_missing, Hmiss.
  - apply empty_matches_nothing.
  - unfold relevant_field in Hmiss.
    destruct (decide (tool_name = "Bash")) as [->|Hb].
    + rewrite validate_bash, dict_get_missing by by apply Hmiss. reflexivity.
    + rewrite (bool_decide_eq_false_2 _ Hb) in Hmiss.
      destruct (decide (tool_name ∈ FILE_TOOLS)) as [Hf|Hf].
      * rewrite (bool_decide_eq_true_2 _ Hf) in Hmiss.
        rewrite (validate_file _ _ Hf), dict_get_missing by by apply Hmiss.
        reflexivity.
      * apply validate_other. intros Hin.
        apply elem_of_cons in Hin as [?|?]; done.
Qed.

Lemma missing_field_allowed_witness :
  (∀ key, relevant_field "Bash" = Some key →
          dict_lookup [("description", PyStr "rm -rf /")] key = None) ∧
  validate_tool_use "Bash" [("description", PyStr "rm -rf /")]
  = Returns (true, None).
Proof.
  assert (∀ key, relevant_field "Bash" = Some key →
                 dict_lookup [("description", PyStr "rm -rf /")] key = None)
    as Hmiss.
  { intros key Hk. vm_compute in Hk. injection Hk as <-. reflexivity. }
  split; [exact Hmiss|].
  exact (proj2 (proj2 (missing_field_allowed "Bash" _ Hmiss))).
Defined.

(** C8. There is a Bash command that matches a dangerous pattern and names
    a sandbox directory in another letter case only, and it is blocked: the
    dangerous patterns are searched without regard to case, the sandbox
    names as written. The same command with the name in lower case is
    allowed. *)
Theorem sandbox_names_are_case_sensitive :
  ∃ command,
    command = "rm -rf /TMP/x" ∧
    dangerous_command command ∧
    contains_ci "/tmp/" command ∧
    ¬ in_sandbox command ∧
    validate_tool_use "Bash" (bash_input command) =
    Returns (false,
             Some "Dangerous rm command detected: matches pattern 'rm\s+-rf\s+/'") ∧
    validate_tool_use "Bash" (bash_input "rm -rf /tmp/x") = Returns (true, None).
Proof.
  exists "rm -rf /TMP/x". split_and!.
  - reflexivity.
  - apply dangerous_command_spec. exists "rm\s+-rf\s+/".
    split; [repeat constructor|reflexivity].
  - by apply search_lit_nocase.
  - intros Hs. by apply is_safe_spec in Hs.
  - reflexivity.
  - reflexivity.
Qed.

(** ** Truncation of session identifiers *)

Lemma substring_take (s : string) : ∀ k,
  String.substring 0 k s = PyStr.of_chars (take k (PyStr.chars s)).
Proof.
  induction s as [|c s IH]; intros [|k]; simpl; try done. by rewrite IH.
Qed.

Lemma slice_to_short (s : string) (stop : Z) :
  Z.of_nat (String.length s) ≤ stop → PyStr.slice_to s stop = s.
Proof.
  intros Hlen. unfold PyStr.slice_to.
  assert (0 ≤ stop) as H0 by lia.
  rewrite (proj2 (Z.ltb_ge stop 0) H0), Z.min_r by lia.
  rewrite Nat2Z.id, <- chars_length, firstn_all. apply of_chars_chars.
Qed.

Lemma slice_to_long (s : string) (stop : Z) :
  0 ≤ stop → stop < Z.of_nat (String.length s) →
  PyStr.slice_to s stop = String.substring 0 (Z.to_nat stop) s.
Proof.
  intros H0 Hlen. unfold PyStr.slice_to.
  rewrite (proj2 (Z.ltb_ge stop 0) H0), Z.min_l by lia.
  by rewrite substring_take.
Qed.

Lemma substring_prefix (s : string) (k : nat) :
  (k ≤ String.length s)%nat →
  String.length (String.substring 0 k s) = k ∧
  ∃ rest, s = String.substring 0 k s +:+ rest.
Proof.
  intros Hk. rewrite substring_take. split.
  - rewrite <- chars_length, chars_of_chars, length_take, chars_length. lia.
  - exists (PyStr.of_chars (drop k (PyStr.chars s))).
    by rewrite <- of_chars_app, take_drop, of_chars_chars.
Qed.

(** C9. For a display length that is not negative: an identifier no longer
    than it comes back unchanged (when it has a character at all); the
    empty identifier gives ["unknown"]; a longer identifier gives its first
    [length] characters, a prefix of it. The default length is 8. *)
Theorem truncated_session_id_spec (s : string) (length : Z) :
  0 ≤ length →
  (s ≠ "" → Z.of_nat (String.length s) ≤ length →
   get_truncated_session_id (Some s) length = s) ∧
  (s = "" → get_truncated_session_id (Some s) length = "unknown") ∧
  (length < Z.of_nat (String.length s) →
   get_truncated_session_id (Some s) length
   = String.substring 0 (Z.to_nat length) s ∧
   String.length (get_truncated_session_id (Some s) length) = Z.to_nat length ∧
   ∃ rest, s = get_truncated_session_id (Some s) length +:+ rest) ∧
  (∀ app, get_agent_display_id app (Some s)
          = app +:+ ":" +:+ get_truncated_session_id (Some s) 8).
Proof.
  intros H0. split_and!.
  - intros Hne Hlen. destruct s as [|c s]; [done|].
    unfold get_truncated_session_id. cbn [PyStr.truthy negb].
    by apply slice_to_short.
  - by intros ->.
  - intros Hlen. destruct s as [|c s]; [simpl in Hlen; lia|].
    unfold get_truncated_session_id. cbn [PyStr.truthy negb].
    rewrite slice_to_long by done.
    split; [done|]. apply substring_prefix. lia.
  - done.
Qed.

Lemma truncated_session_id_spec_witness :
  0 ≤ 8 ∧
  get_truncated_session_id (Some "abcdefghijklmnop") 8
  = String.substring 0 (Z.to_nat 8) "abcdefghijklmnop".
Proof.
  split; [lia|].
  refine (proj1 (proj1 (proj2 (proj2
            (truncated_session_id_spec "abcdefghijklmnop" 8 _))) _));
    [lia|vm_compute; reflexivity].
Defined.

(** ** White space only *)

Lemma lstrip_nil l :
  PyStr.lstrip_chars l = [] ↔ Forall (λ c, PyStr.isspace c = true) l.
Proof.
  induction l as [|c l IH]; simpl.
  - split; [constructor|done].
  - destruct (PyStr.isspace c) eqn:Ec.
    + rewrite IH. split; [by constructor|by inversion 1].
    + split; [done|]. inversion 1; congruence.
Qed.

Lemma lstrip_suffix l : ∃ pre,
  l = pre ++ PyStr.lstrip_chars l ∧ Forall (λ c, PyStr.isspace c = true) pre.
Proof.
  induction l as [|c l (pre & E & Hpre)]; simpl.
  - by exists [].
  - destruct (PyStr.isspace c) eqn:Ec.
    + exists (c :: pre). split; [simpl; by rewrite <- E|by constructor].
    + by exists [].
Qed.

Lemma strip_chars_nil l :
  PyStr.strip_chars l = [] ↔ Forall (λ c, PyStr.isspace c = true) l.
Proof.
  unfold PyStr.strip_chars.
  destruct (lstrip_suffix l) as (pre & E & Hpre).
  split.
  - intros Hn. apply (f_equal (@rev ascii)) in Hn. rewrite rev_involutive in Hn.
    simpl in Hn. apply lstrip_nil in Hn.
    rewrite E. apply Forall_app. split; [done|].
    apply Forall_rev in Hn. by rewrite rev_involutive in Hn.
  - intros Hall. apply lstrip_nil in Hall. by rewrite Hall.
Qed.

Lemma strip_empty s : PyStr.strip s = "" ↔ whitespace_only s.
Proof.
  unfold PyStr.strip, whitespace_only. rewrite <- strip_chars_nil. split.
  - intros E. apply (f_equal PyStr.chars) in E. by rewrite chars_of_chars in E.
  - by intros ->.
Qed.

Lemma truthy_false s : PyStr.truthy s = false ↔ s = "".
Proof. by destruct s. Qed.

(** ** The codec of [JsonText] is a [Json] *)

Lemma skip_ws_space s :
  Forall (λ c, PyStr.isspace c = true) s →
  Forall (λ c, PyStr.isspace c = true) (JsonText.skip_ws s).
Proof.
  induction 1 as [|c s Hc Hs IH]; simpl; [constructor|].
  destruct (JsonText.json_ws c); [done|by constructor].
Qed.

Lemma parse_value_space fuel c s :
  PyStr.isspace c = true → JsonText.parse_value fuel (c :: s) = JsonText.refuse.
Proof.
  destruct fuel as [|fuel]; [done|].
  destruct c as [[] [] [] [] [] [] [] []]; intros Hc; try discriminate Hc;
    reflexivity.
Qed.

Lemma loads_blank s : PyStr.strip s = "" → JsonText.loads s = JsonText.refuse.
Proof.
  intros Hs. apply strip_empty in Hs. unfold JsonText.loads.
  apply skip_ws_space in Hs.
  destruct (JsonText.skip_ws (PyStr.chars s)) as [|c r]; [done|].
  inversion Hs; subst. by rewrite parse_value_space.
Qed.

#[global] Program Instance json_text : Json := {|
  json_dumps := JsonText.dumps;
  json_loads := JsonText.loads;
|}.
Next Obligation.
  intros s Hs. rewrite (loads_blank _ Hs). by eexists.
Qed.

(** ** The event client *)



Lemma urlopen_http_error net req st msg body :
  net req = Responds st msg body → ¬ (200 ≤ st < 300) →
  urlopen net req = Raises (HTTPError st msg body).
Proof.
  unfold urlopen. intros -> Hst.
  destruct (200 <=? st) eqn:Hlo; [|done].
  destruct (st <? 300) eqn:Hhi; [|done].
  apply Z.leb_le in Hlo. apply Z.ltb_lt in Hhi. lia.
Qed.


(** An [HTTPError] is an instance of [URLError], so a clause for [URLError]
    placed first takes it. *)
Lemma http_error_is_url_error : issubclass HTTPErrorC URLErrorC = true.
Proof. reflexivity. Qed.

(** What [check_server_health] comes to, by what the request meets. *)
Lemma check_server_health_value (env : environ) (net : network) :
  check_server_health env net =
  match net (health_request env) with
  | Unreachable _ => Returns false
  | Responds st _ _ => Returns (bool_decide (st = 200))
  | Silent => Raises (TimeoutError "timed out")
  | Disconnects =>
      Raises (RemoteDisconnected "Remote end closed connection without response")
  | Garbles line => Raises (BadStatusLine line)
  end.
Proof.
  unfold check_server_health, urlopen.
  destruct (net (health_request env)) as [reason|st msg body| | |line]; try done.
  destruct ((200 <=? st) && (st <? 300)) eqn:Hst; [done|].
  simpl. f_equal. symmetry. apply bool_decide_eq_false. by intros ->.
Qed.

(** What holds of C4: when the request cannot be sent, or is answered,
    [check_server_health] returns a truth value, [True] exactly for an
    answer with status 200. *)
Lemma check_server_health_answered (env : environ) (net : network) :
  req_url (health_request env) = get_server_url env +:+ "/health" ∧
  req_method (health_request env) = "GET" ∧
  req_timeout (health_request env) = 2 ∧
  (∀ reason, net (health_request env) = Unreachable reason →
             check_server_health env net = Returns false) ∧
  (∀ st msg body, net (health_request env) = Responds st msg body →
                  check_server_health env net = Returns (bool_decide (st = 200))) ∧
  (∀ b, check_server_health env net = Returns b →
        (b = true ↔ ∃ msg body, net (health_request env) = Responds 200 msg body)).
Proof.
  split_and!; [done..| | |]; rewrite check_server_health_value.
  - by intros reason ->.
  - by intros st msg body ->.
  - destruct (net (health_request env)) as [reason|st msg body| | |line];
      intros b [= <-].
    + split; [done|]. by intros (? & ? & ?).
    + rewrite bool_decide_eq_true. split; [intros ->; by eexists _, _|].
      by intros (? & ? & [= ->]).
Qed.

(** C4, where the code departs from it. At a server that takes the request
    and sends no answer within the two seconds, [urlopen] raises the
    [TimeoutError] of the read; it is an [OSError] but neither a [URLError]
    nor an [HTTPError], the clause of [check_server_health] does not take
    it, and the call raises instead of returning [False]. *)
Theorem check_server_health_read_timeout_escapes :
  existsb (issubclass TimeoutErrorC) [URLErrorC; HTTPErrorC] = false ∧
  check_server_health ∅ silent_server = Raises (TimeoutError "timed out").
Proof. split; reflexivity. Qed.






Lemma send_event_rejected `{Json} env net ev st msg body :
  net (events_request env ev) = Responds st msg body → ¬ (200 ≤ st < 300) →
  send_event env net ev =
  Raises (ConnectionError
            ("Failed to connect to server at " +:+ get_server_url env +:+ ": "
             +:+ "HTTP Error " +:+ pretty st +:+ ": " +:+ msg)).
Proof.
  intros E Hst. unfold send_event.
  by rewrite (urlopen_http_error _ _ _ _ _ E Hst).
Qed.

(** C1, where the code departs from it. At a server that answers every
    request with status 500 and body [oops], [send_event] raises
    [ConnectionError], not the [ValueError] with the status and the body:
    the clause for [URLError] stands first and takes the [HTTPError]. *)
Theorem send_event_rejection_raises_connection_error `{Json} :
  send_event ∅ rejecting_server sample_event =
  Raises (ConnectionError
            "Failed to connect to server at http://localhost:4000: HTTP Error 500: Internal Server Error").
Proof.
  rewrite (send_event_rejected ∅ rejecting_server sample_event
             500 "Internal Server Error" "oops"); [reflexivity|reflexivity|lia].
Qed.

(** ** Reading the hook input *)

(** The cases of [read_stdin_json]: blank input, input that decodes, input
    that [json.loads] refuses with a [JSONDecodeError], and input on which
    it raises anything else, which no clause takes. *)
Lemma read_stdin_json_cases `{Json} (stdin : string) :
  (whitespace_only stdin ∧ read_stdin_json stdin = Returns ([], PyDict [])) ∨
  (∃ v, json_loads stdin = Returns v ∧ read_stdin_json stdin = Returns ([], v)) ∨
  (∃ e, json_loads stdin = Raises e ∧
        issubclass (class_of e) JSONDecodeErrorC = true ∧
        read_stdin_json stdin
        = Returns (["Warning: Failed to parse stdin JSON: " +:+ str_exn e], PyDict [])) ∨
  (∃ e, json_loads stdin = Raises e ∧
        issubclass (class_of e) JSONDecodeErrorC = false ∧
        read_stdin_json stdin = Raises e).
Proof.
  unfold read_stdin_json.
  destruct (negb (PyStr.truthy (PyStr.strip stdin))) eqn:Es.
  - left. split; [|done]. by apply strip_empty, truthy_false, negb_true_iff.
  - destruct (json_loads stdin) as [v|e] eqn:E.
    + right. left. by exists v.
    + destruct (issubclass (class_of e) JSONDecodeErrorC) eqn:Ec.
      * right. right. left. exists e. split_and!; [done..|].
        simpl. by rewrite Ec.
      * right. right. right. exists e. split_and!; [done..|].
        simpl. by rewrite Ec.
Qed.

Lemma loads_not_blank `{Json} (stdin : string) v :
  json_loads stdin = Returns v → ¬ whitespace_only stdin.
Proof.
  intros Hv Hb. apply strip_empty in Hb.
  destruct (json_loads_blank _ Hb) as [e He]. congruence.
Qed.

(** What holds of C10: empty input, input of white space only and input
    that [json.loads] refuses with a [JSONDecodeError] give the empty
    mapping, and an input that decodes to an object gives that object. An
    input on which [json.loads] raises another exception makes
    [read_stdin_json] raise it. *)
Lemma read_stdin_json_decoded `{Json} (stdin : string) :
  (stdin = "" → read_stdin_json stdin = Returns ([], PyDict [])) ∧
  (whitespace_only stdin → read_stdin_json stdin = Returns ([], PyDict [])) ∧
  (∀ e, json_loads stdin = Raises e →
        issubclass (class_of e) JSONDecodeErrorC = true →
        ∃ warnings, read_stdin_json stdin = Returns (warnings, PyDict [])) ∧
  (∀ items, json_loads stdin = Returns (PyDict items) →
            read_stdin_json stdin = Returns ([], PyDict items)) ∧
  (∀ e, ¬ whitespace_only stdin → json_loads stdin = Raises e →
        issubclass (class_of e) JSONDecodeErrorC = false →
        read_stdin_json stdin = Raises e).
Proof.
  assert (∀ s, whitespace_only s → read_stdin_json s = Returns ([], PyDict []))
    as Hblank.
  { intros s Hs. apply strip_empty in Hs. unfold read_stdin_json.
    by rewrite Hs. }
  split_and!.
  - intros ->. apply Hblank. constructor.
  - apply Hblank.
  - intros e He Hc.
    destruct (read_stdin_json_cases stdin)
      as [[_ ->]|[(v & Hv & _)|[(e' & _ & _ & ->)|(e' & He' & Hc' & _)]]];
      [by eexists|congruence|by eexists|congruence].
  - intros items Hv.
    destruct (read_stdin_json_cases stdin)
      as [[Hb _]|[(v & Hv' & ->)|[(e' & He' & _)|(e' & He' & _)]]];
      [by apply loads_not_blank in Hv|congruence..].
  - intros e Hb He Hc.
    destruct (read_stdin_json_cases stdin)
      as [[Hb' _]|[(v & Hv & _)|[(e' & He' & Hc' & _)|(e' & He' & _ & ->)]]];
      [done|congruence..].
Qed.

(** C10, where the code departs from it. [long_integer_text] is a JSON
    object whose one member is an integer of 4301 digits. [json.loads]
    raises [ValueError] on it, which is no [JSONDecodeError]; the clause of
    [read_stdin_json] does not take it, and the call raises instead of
    returning a mapping. *)
Theorem read_stdin_json_raises_on_long_integer :
  issubclass ValueErrorC JSONDecodeErrorC = false ∧
  read_stdin_json (H := json_text) long_integer_text =
  Raises (ValueError
            ("Exceeds the limit (4300 digits) for integer string conversion: "
             +:+ "value has 4301 digits; "
             +:+ "use sys.set_int_max_str_digits() to increase the limit")).
Proof. split; [reflexivity|]. vm_compute. reflexivity. Qed.

(** ** The cases of the repository's tests *)

Example test_detects_rm_variants :
  Forall (λ c, ∃ reason, is_dangerous_rm_command (PyStr c) = Returns (true, Some reason))
    ["rm -rf /"; "rm -rf ~"; "rm -rf *"; "rm -rf .."; "rm -fr /"].
Proof. repeat constructor; by eexists. Qed.

Example test_allows_safe_rm :
  Forall (λ c, is_dangerous_rm_command (PyStr c) = Returns (false, None))
    ["rm -rf /tmp/test"; "rm -rf node_modules/"; "rm -rf trees/my-worktree";
     "rm file.txt"; "ls -la"; "git status"].
Proof. repeat constructor. Qed.

Example test_detects_sensitive_files :
  Forall (λ p, is_sensitive_file_access (PyStr p)
               = Returns (true, Some ("Sensitive file access detected: " +:+ p)))
    ["/project/.env"; ".env.local"; "/app/.env.production"; "credentials.json";
     "server.pem"; "private.key"; "~/.ssh/id_rsa"; "~/.ssh/id_ed25519"].
Proof. repeat constructor. Qed.

Example test_allows_other_files :
  Forall (λ p, is_sensitive_file_access (PyStr p) = Returns (false, None))
    [".env.sample"; ".env.example"; ".env.template"; "index.ts"; "package.json"].
Proof. repeat constructor. Qed.

Example test_validate_tool_use :
  validate_tool_use "Bash" (bash_input "ls -la") = Returns (true, None) ∧
  validate_tool_use "Read" (file_input "index.ts") = Returns (true, None) ∧
  validate_tool_use "Write" (file_input ".env")
  = Returns (false, Some "Sensitive file access detected: .env") ∧
  validate_tool_use "Edit" (file_input "credentials.json")
  = Returns (false, Some "Sensitive file access detected: credentials.json") ∧
  validate_tool_use "Glob" [("pattern", PyStr "*.ts")] = Returns (true, None).
Proof. split_and!; reflexivity. Qed.

Example test_truncated_session_id :
  get_truncated_session_id (Some "abcdefghijklmnop") default_length = "abcdefgh" ∧
  get_truncated_session_id (Some "abcdefghijklmnop") 4 = "abcd" ∧
  get_truncated_session_id (Some "abc") default_length = "abc" ∧
  get_truncated_session_id (Some "") default_length = "unknown" ∧
  get_truncated_session_id None default_length = "unknown" ∧
  get_agent_display_id "my-app" (Some "session123456789") = "my-app:session1".
Proof. split_and!; reflexivity. Qed.

Example test_read_stdin_json :
  read_stdin_json (H := json_text) "" = Returns ([], PyDict []) ∧
  read_stdin_json (H := json_text) ("   " +:+ LF +:+ "  ") = Returns ([], PyDict []) ∧
  (∃ warning, read_stdin_json (H := json_text) "not valid json {"
              = Returns ([warning], PyDict [])).
Proof. split_and!; [reflexivity..|by eexists]. Qed.

Example test_check_server_health :
  check_server_health ∅ (λ _, Responds 200 "OK" "") = Returns true ∧
  check_server_health ∅ (λ _, Responds 204 "No Content" "") = Returns false ∧
  check_server_health ∅ (λ _, Unreachable "Connection refused") = Returns false ∧
  check_server_health ∅ rejecting_server = Returns false.
Proof. split_and!; reflexivity. Qed.

(** ** Edge cases outside the tests *)

(** A final line feed does not hide a suffix from [$]: the exception still
    applies, and a sensitive suffix is still found. *)
Example suffix_before_final_line_feed :
  validate_tool_use "Read" (file_input ("id_rsa/.env.sample" +:+ LF))
  = Returns (true, None) ∧
  validate_tool_use "Read" (file_input ("server.pem" +:+ LF))
  = Returns (false, Some ("Sensitive file access detected: server.pem" +:+ LF)) ∧
  validate_tool_use "Read" (file_input ("server.pem" +:+ LF +:+ LF))
  = Returns (true, None).
Proof. split_and!; reflexivity. Qed.

(** A negative length counts from the end, as a slice does. *)
Example truncation_negative_length :
  get_truncated_session_id (Some "abcdef") (-2) = "abcd" ∧
  get_truncated_session_id (Some "abcdef") (-9) = "" ∧
  get_truncated_session_id (Some "abcdef") 0 = "".
Proof. split_and!; reflexivity. Qed.

(** A field that is present but not a string makes the validator raise. *)
Example non_string_field_raises :
  validate_tool_use "Bash" [("command", PyNone)] = Raises TypeError ∧
  validate_tool_use "Edit" [("file_path", PyInt 3)] = Raises TypeError ∧
  validate_tool_use "Grep" [("command", PyNone)] = Returns (true, None).
Proof. split_and!; reflexivity. Qed.

(** The sandbox name need not be the target of the delete. *)
Example sandbox_name_in_a_comment :
  validate_tool_use "Bash" (bash_input "rm -rf / # trees/") = Returns (true, None).
Proof. reflexivity. Qed.


(** * Further properties *)

(** ** The validator, both ways *)

Lemma bash_allowed_iff_witness :
  dict_lookup (bash_input "rm  -Rf ..") "command" = Some (PyStr "rm  -Rf ..") ∧
  (validate_tool_use "Bash" (bash_input "rm  -Rf ..") = Returns (true, None) ↔
   ¬ dangerous_command "rm  -Rf .." ∨ in_sandbox "rm  -Rf ..").
Proof.
  split; [reflexivity|].
  apply (bash_allowed_iff "rm  -Rf .." (bash_input "rm  -Rf ..")). reflexivity.
Defined.

Lemma sensitive_match_spec file_path :
  existsb (λ pattern, Re.search pattern file_path Re.IGNORECASE)
          SENSITIVE_FILE_PATTERNS = true ↔
  sensitive_match file_path.
Proof.
  rewrite (existsb_search _ _ _
             (map suffix_re SENSITIVE_SUFFIXES ++ map lit_re KEY_STEMS))
    by (rewrite sensitive_compile, map_app; by rewrite !map_map).
  rewrite existsb_app, orb_true_iff, !existsb_elem_of.
  unfold sensitive_match. split.
  - intros [(re & Hre & Hs)|(re & Hre & Hs)];
      apply list_elem_of_fmap in Hre as (w & -> & Hw); [left|right];
      exists w; (split; [done|]).
    + by apply search_suffix.
    + by apply search_lit_nocase.
  - intros [(w & Hw & Hs)|(w & Hw & Hs)]; [left|right].
    + exists (suffix_re w). split; [apply list_elem_of_fmap; by exists w|].
      by apply search_suffix.
    + exists (lit_re w). split; [apply list_elem_of_fmap; by exists w|].
      by apply search_lit_nocase.
Qed.

(** X2. For Read, Write and Edit the call always returns, and it blocks a
    path exactly when a sensitive pattern is found in it and no exception
    suffix matches it; the reason is then the fixed sentence followed by
    the path. Nothing else in [tool_input] matters. *)
Theorem file_blocked_iff (tool_name : string) (tool_input : dict) (file_path : string) :
  tool_name ∈ FILE_TOOLS →
  dict_lookup tool_input "file_path" = Some (PyStr file_path) →
  (validate_tool_use tool_name tool_input
   = Returns (false, Some ("Sensitive file access detected: " +:+ file_path)) ↔
   sensitive_match file_path ∧ ¬ exception_path file_path) ∧
  (validate_tool_use tool_name tool_input = Returns (true, None) ↔
   ¬ sensitive_match file_path ∨ exception_path file_path) ∧
  (validate_tool_use tool_name tool_input = Returns (true, None) ∨
   validate_tool_use tool_name tool_input
   = Returns (false, Some ("Sensitive file access detected: " +:+ file_path))).
Proof.
  intros Htool Hpath. rewrite (validate_file_str _ _ _ Htool Hpath).
  unfold sensitive_check.
  destruct (existsb _ ALLOWED_SENSITIVE_PATTERNS) eqn:Ea.
  - apply exception_spec in Ea. split_and!.
    + split; [done|]. by intros [_ ?].
    + split; [by right|done].
    + by left.
  - assert (¬ exception_path file_path) as Hne.
    { intros He. apply exception_spec in He. congruence. }
    destruct (existsb _ SENSITIVE_FILE_PATTERNS) eqn:Es.
    + apply sensitive_match_spec in Es. split_and!.
      * by split.
      * split; [done|]. by intros [?|?].
      * by right.
    + assert (¬ sensitive_match file_path) as Hns.
      { intros Hs. apply sensitive_match_spec in Hs. congruence. }
      split_and!.
      * split; [done|]. by intros [? _].
      * split; [by left|done].
      * by left.
Qed.

Lemma file_blocked_iff_witness :
  "Edit" ∈ FILE_TOOLS ∧
  sensitive_match "~/.ssh/ID_RSA.pub" ∧ ¬ exception_path "~/.ssh/ID_RSA.pub" ∧
  validate_tool_use "Edit" (file_input "~/.ssh/ID_RSA.pub")
  = Returns (false, Some ("Sensitive file access detected: " +:+ "~/.ssh/ID_RSA.pub")).
Proof.
  assert ("Edit" ∈ FILE_TOOLS) as Ht by repeat constructor.
  assert (sensitive_match "~/.ssh/ID_RSA.pub") as Hs.
  { right. exists "id_rsa". split; [repeat constructor|].
    by exists "~/.ssh/", "ID_RSA", ".pub". }
  assert (¬ exception_path "~/.ssh/ID_RSA.pub") as Hne.
  { intros He. apply exception_spec in He. vm_compute in He. discriminate He. }
  split_and!; [exact Ht|exact Hs|exact Hne|].
  apply (file_blocked_iff "Edit" (file_input "~/.ssh/ID_RSA.pub") "~/.ssh/ID_RSA.pub");
    [exact Ht|reflexivity|]. by split.
Defined.

Lemma dangerous_loop_first command : ∀ patterns reason,
  dangerous_loop patterns command = (true, Some reason) →
  ∃ before pattern after,
    patterns = before ++ pattern :: after ∧
    reason = dangerous_reason pattern ∧
    Re.search pattern command Re.IGNORECASE = true ∧
    Forall (λ q, Re.search q command Re.IGNORECASE = false) before ∧
    is_safe command = false.
Proof.
  induction patterns as [|p ps IH]; intros reason Hl; simpl in Hl; [done|].
  destruct (Re.search p command Re.IGNORECASE) eqn:Hp.
  - destruct (is_safe command) eqn:Hs; simpl in Hl.
    + by rewrite (dangerous_loop_safe _ _ Hs) in Hl.
    + injection Hl as <-. by exists [], p, ps.
  - destruct (IH _ Hl) as (before & q & after & -> & -> & Hq & Hb & Hs).
    exists (p :: before), q, after. split_and!; [done..| |done].
    by constructor.
Qed.

(** X3. When a Bash command is blocked, the reason names the first pattern of
    the table, in its order, that matches the command; no pattern before it
    matches, and no sandbox name occurs in the command. *)
Theorem blocked_reason_names_first_match
    (command : string) (tool_input : dict) (reason : option string) :
  dict_lookup tool_input "command" = Some (PyStr command) →
  validate_tool_use "Bash" tool_input = Returns (false, reason) →
  ∃ before pattern after,
    DANGEROUS_RM_PATTERNS = before ++ pattern :: after ∧
    reason = Some ("Dangerous rm command detected: matches pattern '"
                   +:+ pattern +:+ "'") ∧
    Re.search pattern command Re.IGNORECASE = true ∧
    Forall (λ q, Re.search q command Re.IGNORECASE = false) before ∧
    ¬ in_sandbox command.
Proof.
  intros Hcmd. rewrite (validate_bash_str _ _ Hcmd).
  destruct (dangerous_loop DANGEROUS_RM_PATTERNS command) as [[] r] eqn:El;
    unfold verdict_of; simpl; intros [= <-].
  destruct (dangerous_loop_cases command DANGEROUS_RM_PATTERNS)
    as [E|(p & _ & E)]; rewrite E in El; [done|].
  injection El as <-.
  destruct (dangerous_loop_first _ _ _ E)
    as (before & q & after & Et & Er & Hq & Hb & Hs).
  exists before, q, after. split_and!; [done|by rewrite Er|done|done|].
  intros Hin. apply is_safe_spec in Hin. congruence.
Qed.

Lemma blocked_reason_names_first_match_witness :
  validate_tool_use "Bash" (bash_input "rm -fr ~/work; rm -rf *")
  = Returns (false,
             Some "Dangerous rm command detected: matches pattern 'rm\s+-rf\s+\*'") ∧
  ∃ before pattern after,
    DANGEROUS_RM_PATTERNS = before ++ pattern :: after ∧
    Some "Dangerous rm command detected: matches pattern 'rm\s+-rf\s+\*'"
    = Some ("Dangerous rm command detected: matches pattern '"
            +:+ pattern +:+ "'") ∧
    Re.search pattern "rm -fr ~/work; rm -rf *" Re.IGNORECASE = true ∧
    Forall (λ q, Re.search q "rm -fr ~/work; rm -rf *" Re.IGNORECASE = false)
           before ∧
    ¬ in_sandbox "rm -fr ~/work; rm -rf *".
Proof.
  assert (validate_tool_use "Bash" (bash_input "rm -fr ~/work; rm -rf *")
          = Returns (false,
              Some "Dangerous rm command detected: matches pattern 'rm\s+-rf\s+\*'"))
    as Hv by reflexivity.
  split; [exact Hv|].
  apply (blocked_reason_names_first_match
           "rm -fr ~/work; rm -rf *" (bash_input "rm -fr ~/work; rm -rf *"));
    [reflexivity|exact Hv].
Defined.

(** ** Letter case *)

Lemma isspace_lower c : PyStr.isspace (PyStr.lower c) = PyStr.isspace c.
Proof. by destruct c as [[] [] [] [] [] [] [] []]. Qed.

Lemma lower_of_LF : PyStr.lower "010" = "010"%char.
Proof. reflexivity. Qed.

Lemma atom_match_lower a c c' :
  PyStr.lower c = PyStr.lower c' →
  Re.atom_match Re.IGNORECASE a c = Re.atom_match Re.IGNORECASE a c'.
Proof.
  intros E. destruct a as [p|]; simpl.
  - by rewrite E.
  - by rewrite <- (isspace_lower c), E, isspace_lower.
Qed.

Lemma at_end_lower s s' :
  map PyStr.lower s = map PyStr.lower s' → Re.at_end s = Re.at_end s'.
Proof.
  destruct s as [|c [|d s]], s' as [|c' [|d' s']]; try done.
  simpl. intros [= E]. unfold PyStr.eqb_char.
  apply bool_decide_ext. split; intros ->.
  - symmetry in E. rewrite lower_of_LF in E. by apply lower_LF in E.
  - rewrite lower_of_LF in E. by apply lower_LF in E.
Qed.

Lemma match_here_lower re : ∀ s s',
  map PyStr.lower s = map PyStr.lower s' →
  Re.match_here Re.IGNORECASE re s = Re.match_here Re.IGNORECASE re s'.
Proof.
  induction re as [|n re IH]; [done|].
  destruct n as [a|a|].
  - intros [|c s] [|c' s'] E; try done. simpl in E. injection E as Ec E.
    simpl. by rewrite (atom_match_lower a _ _ Ec), (IH _ _ E).
  - induction s as [|c s IHs]; intros [|c' s'] E; try done.
    simpl in E. injection E as Ec E.
    rewrite !match_here_many_cons.
    by rewrite (atom_match_lower a _ _ Ec), (IHs _ E), (IH _ _ E).
  - intros s s' E. simpl. by rewrite (at_end_lower _ _ E), (IH _ _ E).
Qed.

Lemma search_from_lower re : ∀ s s',
  map PyStr.lower s = map PyStr.lower s' →
  Re.search_from Re.IGNORECASE re s = Re.search_from Re.IGNORECASE re s'.
Proof.
  induction s as [|c s IH]; intros [|c' s'] E; try done.
  simpl in E. injection E as Ec E.
  assert (map PyStr.lower (c :: s) = map PyStr.lower (c' :: s')) as E'
    by (simpl; by rewrite Ec, E).
  simpl. by rewrite (match_here_lower _ _ _ E'), (IH _ E).
Qed.

Lemma search_ignores_case pattern s s' :
  ci_eq s s' →
  Re.search pattern s Re.IGNORECASE = Re.search pattern s' Re.IGNORECASE.
Proof.
  intros E. unfold Re.search. destruct (Re.compile pattern); [|done].
  by apply search_from_lower.
Qed.

Lemma existsb_pointwise {A} (f g : A → bool) (l : list A) :
  (∀ x, f x = g x) → existsb f l = existsb g l.
Proof. intros E. induction l as [|x l IH]; simpl; [done|]. by rewrite E, IH. Qed.

Lemma lower_swapcase c : PyStr.lower (swapcase c) = PyStr.lower c.
Proof. by destruct c as [[] [] [] [] [] [] [] []]. Qed.

Lemma case_variant_ci_eq p p' : case_variant p p' → ci_eq p p'.
Proof.
  unfold case_variant, ci_eq.
  induction 1 as [|c c' l l' [->| ->] _ IH]; simpl; [done|by rewrite IH|].
  by rewrite lower_swapcase, IH.
Qed.

(** X4. In a path of characters below U+0100, putting ASCII letters in
    their other case never changes whether Read, Write or Edit of it is
    blocked: the path and its variant are both allowed or both blocked. *)
Theorem file_verdict_ignores_case
    (tool_name : string) (tool_input tool_input' : dict) (p p' : string) :
  tool_name ∈ FILE_TOOLS →
  dict_lookup tool_input "file_path" = Some (PyStr p) →
  dict_lookup tool_input' "file_path" = Some (PyStr p') →
  case_variant p p' →
  (validate_tool_use tool_name tool_input = Returns (true, None) ↔
   validate_tool_use tool_name tool_input' = Returns (true, None)) ∧
  (validate_tool_use tool_name tool_input
   = Returns (false, Some ("Sensitive file access detected: " +:+ p)) ↔
   validate_tool_use tool_name tool_input'
   = Returns (false, Some ("Sensitive file access detected: " +:+ p'))).
Proof.
  intros Ht Hp Hp' E%case_variant_ci_eq.
  rewrite (validate_file_str _ _ _ Ht Hp), (validate_file_str _ _ _ Ht Hp').
  unfold sensitive_check.
  rewrite (existsb_pointwise _ (λ pattern, Re.search pattern p' Re.IGNORECASE)
             ALLOWED_SENSITIVE_PATTERNS)
    by (intros x; by apply search_ignores_case).
  rewrite (existsb_pointwise _ (λ pattern, Re.search pattern p' Re.IGNORECASE)
             SENSITIVE_FILE_PATTERNS)
    by (intros x; by apply search_ignores_case).
  by repeat destruct (existsb _ _).
Qed.

Lemma file_verdict_ignores_case_witness :
  "Read" ∈ FILE_TOOLS ∧ case_variant "/Srv/Secrets.JSON" "/srv/secrets.json" ∧
  (validate_tool_use "Read" (file_input "/Srv/Secrets.JSON")
   = Returns (false, Some ("Sensitive file access detected: " +:+ "/Srv/Secrets.JSON")) ↔
   validate_tool_use "Read" (file_input "/srv/secrets.json")
   = Returns (false, Some ("Sensitive file access detected: " +:+ "/srv/secrets.json"))).
Proof.
  assert ("Read" ∈ FILE_TOOLS) as Ht by repeat constructor.
  assert (case_variant "/Srv/Secrets.JSON" "/srv/secrets.json") as E
    by (repeat constructor).
  split_and!; [exact Ht|exact E|].
  exact (proj2 (file_verdict_ignores_case "Read"
                  (file_input "/Srv/Secrets.JSON") (file_input "/srv/secrets.json")
                  "/Srv/Secrets.JSON" "/srv/secrets.json" Ht eq_refl eq_refl E)).
Defined.

(** ** Truncation and the display id *)

Lemma slice_to_nonneg (s : string) (stop : Z) :
  0 ≤ stop → PyStr.slice_to s stop = PyStr.of_chars (take (Z.to_nat stop) (PyStr.chars s)).
Proof.
  intros H0. unfold PyStr.slice_to. rewrite (proj2 (Z.ltb_ge stop 0) H0).
  destruct (Z.le_ge_cases stop (Z.of_nat (String.length s))) as [Hle|Hge].
  - by rewrite Z.min_l.
  - rewrite Z.min_r, Nat2Z.id by done.
    rewrite !take_ge; [done|rewrite chars_length; lia..].
Qed.

Lemma slice_to_prefix (s : string) (stop : Z) :
  ∃ rest, s = PyStr.slice_to s stop +:+ rest.
Proof.
  unfold PyStr.slice_to. eexists (PyStr.of_chars (drop _ (PyStr.chars s))).
  by rewrite <- of_chars_app, take_drop, of_chars_chars.
Qed.

Lemma of_chars_nil l : PyStr.of_chars l = "" → l = [].
Proof. by destruct l. Qed.

(** X5. Whatever the length asked for, negative ones included, the result
    is ["unknown"] for an absent or empty identifier, and otherwise a prefix
    of the identifier, never longer than it. *)
Theorem truncation_unknown_or_prefix (session_id : option string) (length : Z) :
  ((session_id = None ∨ session_id = Some "") ∧
   get_truncated_session_id session_id length = "unknown") ∨
  (∃ s rest, session_id = Some s ∧ s ≠ "" ∧
             s = get_truncated_session_id session_id length +:+ rest ∧
             (String.length (get_truncated_session_id session_id length)
              ≤ String.length s)%nat).
Proof.
  destruct session_id as [[|c s]|]; [left; by split; [right|]| |left; by split; [left|]].
  right. destruct (slice_to_prefix (String c s) length) as [rest E].
  exists (String c s), rest. split_and!; [done|done|exact E|].
  unfold get_truncated_session_id. cbn [PyStr.truthy negb].
  apply (f_equal String.length) in E.
  rewrite <- !chars_length, chars_app, length_app in E.
  rewrite <- !chars_length. lia.
Qed.

(** X6. For a length of at least 1, truncating a non-empty identifier twice
    gives what truncating it once gives. *)
Theorem truncation_idempotent (s : string) (length : Z) :
  1 ≤ length → s ≠ "" →
  get_truncated_session_id (Some (get_truncated_session_id (Some s) length)) length
  = get_truncated_session_id (Some s) length.
Proof.
  intros Hl Hs. destruct s as [|c s]; [done|].
  assert (∀ t, get_truncated_session_id (Some (String c t)) length
               = String c (PyStr.of_chars (take (Z.to_nat length - 1) (PyStr.chars t))))
    as Hcons.
  { intros t. unfold get_truncated_session_id. cbn [PyStr.truthy negb].
    rewrite slice_to_nonneg by lia.
    destruct (Z.to_nat length) as [|k] eqn:Ek; [lia|].
    simpl. by rewrite Nat.sub_0_r. }
  by rewrite (Hcons s), Hcons, chars_of_chars, take_take, Nat.min_id.
Qed.

Lemma truncation_idempotent_witness :
  1 ≤ 4 ∧ "session123456789" ≠ "" ∧
  get_truncated_session_id
    (Some (get_truncated_session_id (Some "session123456789") 4)) 4
  = get_truncated_session_id (Some "session123456789") 4.
Proof.
  split; [lia|]. split; [discriminate|].
  apply (truncation_idempotent "session123456789" 4); [lia|discriminate].
Defined.

(** X7. The display id is the source app, a colon, and a part of one to
    eight characters: ["unknown"], or a non-empty prefix of the session
    identifier. *)
Theorem display_id_shape (source_app : string) (session_id : option string) :
  ∃ t, get_agent_display_id source_app session_id = source_app +:+ ":" +:+ t ∧
       (1 ≤ String.length t ≤ 8)%nat ∧
       (t = "unknown" ∧ (session_id = None ∨ session_id = Some "") ∨
        ∃ s rest, session_id = Some s ∧ s = t +:+ rest).
Proof.
  unfold get_agent_display_id.
  exists (get_truncated_session_id session_id default_length).
  split; [done|].
  destruct session_id as [[|c s]|].
  - split; [simpl; lia|]. left. split; [done|by right].
  - split.
    + unfold get_truncated_session_id, default_length. cbn [PyStr.truthy negb].
      rewrite slice_to_nonneg by lia.
      rewrite <- chars_length, chars_of_chars, length_take.
      change (length (PyStr.chars (String c s))) with (S (length (PyStr.chars s))).
      change (Z.to_nat 8) with 8%nat. lia.
    + right. destruct (slice_to_prefix (String c s) default_length) as [rest E].
      by exists (String c s), rest.
  - split; [simpl; lia|]. left. split; [done|by left].
Qed.

(** ** The project name *)

Lemma split_go_last cur s :
  last (split_go "/" cur s) = Some (after_last_slash cur s).
Proof.
  revert cur. induction s as [|c s IH]; intros cur; simpl; [done|].
  destruct (PyStr.eqb_char c "/"); [|by apply IH].
  by rewrite last_cons, IH.
Qed.

Lemma last_item_split url :
  last_item (str_split url "/") = os_path_basename url.
Proof.
  unfold last_item, str_split, os_path_basename.
  by rewrite fmap_last, split_go_last.
Qed.

Lemma after_last_no_slash s : ∀ cur,
  no_slash cur → no_slash (after_last_slash cur s).
Proof.
  induction s as [|c s IH]; intros cur Hcur; simpl; [done|].
  destruct (PyStr.eqb_char c "/") eqn:Ec.
  - apply IH. constructor.
  - apply IH, Forall_app. split; [done|]. constructor; [|constructor].
    intros ->. by vm_compute in Ec.
Qed.

Lemma after_last_slash_free s : ∀ cur,
  no_slash s → after_last_slash cur s = cur ++ s.
Proof.
  induction s as [|c s IH]; intros cur Hs; simpl; [by rewrite app_nil_r|].
  inversion Hs as [|?? Hc Hs']; subst.
  destruct (PyStr.eqb_char c "/") eqn:Ec; [by apply eqb_char_true in Ec|].
  rewrite IH by done. by rewrite <- app_assoc.
Qed.

Lemma after_last_slash_app a s : ∀ cur,
  after_last_slash cur (a ++ "/"%char :: s) = after_last_slash [] s.
Proof.
  induction a as [|c a IH]; intros cur; simpl; [done|].
  destruct (PyStr.eqb_char c "/"); apply IH.
Qed.

Lemma basename_of_path pre name :
  no_slash (PyStr.chars name) →
  os_path_basename (pre +:+ "/" +:+ name) = name.
Proof.
  intros Hn. unfold os_path_basename. rewrite !chars_app.
  change (PyStr.chars "/" ++ PyStr.chars name) with ("/"%char :: PyStr.chars name).
  rewrite after_last_slash_app, after_last_slash_free by done.
  apply of_chars_chars.
Qed.

Lemma starts_with_Some w s r : JsonText.starts_with w s = Some r → s = w ++ r.
Proof.
  unfold JsonText.starts_with. case_bool_decide as E; [|done].
  intros [= <-]. rewrite <- (take_drop (length w) s) at 1. by rewrite E.
Qed.

Lemma replace_fuel_keeps (P : ascii → Prop) old : ∀ fuel s,
  Forall P s → Forall P (replace_fuel fuel old [] s).
Proof.
  induction fuel as [|fuel IH]; intros s Hs; [by destruct s|].
  destruct s as [|c s]; [done|]. cbn [replace_fuel].
  destruct (JsonText.starts_with old (c :: s)) as [rest|] eqn:E.
  - simpl. apply IH. apply starts_with_Some in E. rewrite E in Hs.
    by apply Forall_app in Hs as [_ ?].
  - inversion Hs; subst. constructor; [done|by apply IH].
Qed.

Lemma absent_tail old c s : absent old (c :: s) → absent old s.
Proof. intros H a b ->. by apply (H (c :: a) b). Qed.

Lemma replace_fuel_absent old new : ∀ fuel s,
  absent old s → replace_fuel fuel old new s = s.
Proof.
  induction fuel as [|fuel IH]; intros s Hs; [by destruct s|].
  destruct s as [|c s]; [done|]. cbn [replace_fuel].
  destruct (JsonText.starts_with old (c :: s)) as [rest|] eqn:E.
  - apply starts_with_Some in E. by destruct (Hs [] rest).
  - f_equal. apply IH. by eapply absent_tail.
Qed.

Lemma replace_dot_git_suffix : ∀ name fuel,
  absent DOT_GIT name → (length name < fuel)%nat →
  replace_fuel fuel DOT_GIT [] (name ++ DOT_GIT) = name.
Proof.
  induction name as [|c name IH]; intros fuel Hn Hf.
  - destruct fuel as [|fuel]; [simpl in Hf; lia|]. by destruct fuel.
  - destruct fuel as [|fuel]; [simpl in Hf; lia|].
    change ((c :: name) ++ DOT_GIT) with (c :: name ++ DOT_GIT).
    cbn [replace_fuel].
    destruct (JsonText.starts_with DOT_GIT (c :: name ++ DOT_GIT)) as [rest|] eqn:E.
    + exfalso. apply starts_with_Some in E.
      destruct name as [|x [|y [|z name]]]; try (by inversion E).
      injection E as -> -> -> -> E. by apply (Hn [] name).
    + f_equal. apply IH; [by eapply absent_tail|simpl in Hf; lia].
Qed.

Lemma contains_absent old s :
  ¬ contains old s → absent (PyStr.chars old) (PyStr.chars s).
Proof.
  intros Hc a b E. apply Hc. exists (PyStr.of_chars a), (PyStr.of_chars b).
  apply chars_inj. by rewrite !chars_app, !chars_of_chars.
Qed.

Lemma str_replace_dot_git name :
  ¬ contains ".git" name →
  str_replace name ".git" "" = name ∧
  str_replace (name +:+ ".git") ".git" "" = name.
Proof.
  intros Hc. apply contains_absent in Hc. unfold str_replace. split.
  - by rewrite replace_fuel_absent, of_chars_chars.
  - rewrite chars_app. change (PyStr.chars ".git") with DOT_GIT.
    rewrite replace_dot_git_suffix, of_chars_chars; [done|done|].
    rewrite <- chars_length, chars_app, length_app. simpl. lia.
Qed.

Lemma truthy_true s : PyStr.truthy s = true ↔ s ≠ "".
Proof. by destruct s. Qed.

(** X8. Whatever the environment, the directory and the outcome of git, the
    source app is never the empty string and never contains a slash. *)
Theorem source_app_nonempty_no_slash
    (env : environ) (getcwd : string) (git : string → git_outcome) :
  get_source_app env getcwd git ≠ "" ∧
  "/"%char ∉ PyStr.chars (get_source_app env getcwd git).
Proof.
  assert (∀ s, no_slash (PyStr.chars s) → "/"%char ∉ PyStr.chars s) as Hno.
  { intros s Hs Hin. by apply (proj1 (Forall_forall _ _) Hs _ Hin). }
  assert (∀ p, no_slash (PyStr.chars (os_path_basename p))) as Hbase.
  { intros p. unfold os_path_basename. rewrite chars_of_chars.
    apply after_last_no_slash. constructor. }
  assert ("unknown" ≠ "" ∧ "/"%char ∉ PyStr.chars "unknown") as Hunk.
  { split; [done|]. apply Hno. unfold no_slash. by repeat constructor. }
  assert (∀ cwd,
            (if PyStr.truthy cwd
             then if PyStr.truthy (os_path_basename cwd)
                  then os_path_basename cwd else "unknown"
             else "unknown") ≠ "" ∧
            "/"%char ∉ PyStr.chars
              (if PyStr.truthy cwd
               then if PyStr.truthy (os_path_basename cwd)
                    then os_path_basename cwd else "unknown"
               else "unknown")) as Hdir.
  { intros cwd. destruct (PyStr.truthy cwd); [|done].
    destruct (PyStr.truthy (os_path_basename cwd)) eqn:Et; [|done].
    split; [by apply truthy_true|by apply Hno]. }
  unfold get_source_app.
  destruct (git _) as [rc out|]; [|by apply Hdir].
  destruct (bool_decide (rc = 0) && PyStr.truthy (PyStr.strip out)); [|by apply Hdir].
  destruct (PyStr.truthy (str_replace _ _ _)) eqn:Et; [|by apply Hdir].
  split; [by apply truthy_true|]. apply Hno.
  rewrite last_item_split. unfold str_replace. rewrite chars_of_chars.
  apply replace_fuel_keeps, Hbase.
Qed.

(** X9. When git ends with code 0 and prints, between white space, a URL whose
    last component is [name] or [name.git], where [name] is not empty and has
    neither a slash nor [.git] in it, the source app is [name]. *)
Theorem source_app_from_remote
    (env : environ) (getcwd : string) (git : string → git_outcome)
    (stdout pre name suffix : string) :
  git (default getcwd (env !! "CLAUDE_PROJECT_DIR")) = GitCompleted 0 stdout →
  PyStr.strip stdout = pre +:+ "/" +:+ name +:+ suffix →
  suffix = "" ∨ suffix = ".git" →
  name ≠ "" → "/"%char ∉ PyStr.chars name → ¬ contains ".git" name →
  get_source_app env getcwd git = name.
Proof.
  intros Hgit Hurl Hsuf Hne Hslash Hdot. unfold get_source_app.
  rewrite Hgit, Hurl, last_item_split. cbn [bool_decide decide_rel]. simpl andb.
  assert (no_slash (PyStr.chars (name +:+ suffix))) as Hns.
  { rewrite chars_app. apply Forall_app. split.
    - apply Forall_forall. by intros c Hc ->.
    - destruct Hsuf as [->| ->]; unfold no_slash; by repeat constructor. }
  rewrite (basename_of_path _ _ Hns).
  assert (str_replace (name +:+ suffix) ".git" "" = name) as ->.
  { destruct (str_replace_dot_git _ Hdot) as [E1 E2].
    destruct Hsuf as [->| ->]; [|done].
    assert (name +:+ "" = name) as -> by (apply chars_inj; by rewrite chars_app, app_nil_r).
    done. }
  assert (PyStr.truthy (pre +:+ "/" +:+ name +:+ suffix) = true) as ->.
  { apply truthy_true. intros E. apply (f_equal PyStr.chars) in E.
    rewrite !chars_app in E. by destruct (PyStr.chars pre). }
  by rewrite (proj2 (truthy_true name) Hne).
Qed.

Lemma source_app_from_remote_witness :
  PyStr.strip ("https://github.com/user/my-awesome-repo.git" +:+ LF)
  = "https://github.com/user" +:+ "/" +:+ "my-awesome-repo" +:+ ".git" ∧
  get_source_app {[ "CLAUDE_PROJECT_DIR" := "/test/project" ]} "/home"
    (λ _, GitCompleted 0 ("https://github.com/user/my-awesome-repo.git" +:+ LF))
  = "my-awesome-repo".
Proof.
  assert (PyStr.strip ("https://github.com/user/my-awesome-repo.git" +:+ LF)
          = "https://github.com/user" +:+ "/" +:+ "my-awesome-repo" +:+ ".git")
    as Hurl by (vm_compute; reflexivity).
  split; [exact Hurl|].
  apply (source_app_from_remote
           {[ "CLAUDE_PROJECT_DIR" := "/test/project" ]} "/home"
           (λ _, GitCompleted 0 ("https://github.com/user/my-awesome-repo.git" +:+ LF))
           ("https://github.com/user/my-awesome-repo.git" +:+ LF)
           "https://github.com/user" "my-awesome-repo" ".git").
  - reflexivity.
  - exact Hurl.
  - by right.
  - discriminate.
  - apply (bool_decide_unpack _). vm_compute. exact I.
  - intros Hc. apply search_lit_exact in Hc. vm_compute in Hc. discriminate Hc.
Defined.

(** X10. When git gives nothing to use (the call fails, the code is not 0,
    or the output is blank), the source app is the part of the project
    directory after its last slash; it is ["unknown"] when that part is
    empty, as for a directory written with a final slash. *)
Theorem source_app_fallback
    (env : environ) (getcwd : string) (git : string → git_outcome) (cwd : string) :
  default getcwd (env !! "CLAUDE_PROJECT_DIR") = cwd →
  (git cwd = GitFailed ∨
   ∃ returncode stdout, git cwd = GitCompleted returncode stdout ∧
                        (returncode ≠ 0 ∨ whitespace_only stdout)) →
  (∀ pre name, cwd = pre +:+ "/" +:+ name → name ≠ "" →
               "/"%char ∉ PyStr.chars name →
               get_source_app env getcwd git = name) ∧
  (∀ pre, cwd = pre +:+ "/" → get_source_app env getcwd git = "unknown") ∧
  (cwd = "" → get_source_app env getcwd git = "unknown") ∧
  (cwd ≠ "" → "/"%char ∉ PyStr.chars cwd → get_source_app env getcwd git = cwd).
Proof.
  intros Hcwd Hgit.
  assert (∀ s, "/"%char ∉ PyStr.chars s → no_slash (PyStr.chars s)) as Hno.
  { intros s Hs. apply Forall_forall. by intros c Hc ->. }
  assert (get_source_app env getcwd git =
          if PyStr.truthy cwd
          then if PyStr.truthy (os_path_basename cwd)
               then os_path_basename cwd else "unknown"
          else "unknown") as ->.
  { unfold get_source_app. rewrite Hcwd.
    destruct Hgit as [->|(rc & out & -> & [Hrc|Hout])]; [done| |].
    - by rewrite (bool_decide_eq_false_2 _ Hrc).
    - apply strip_empty in Hout. rewrite Hout. by rewrite andb_false_r. }
  split_and!.
  - intros pre name -> Hne Hslash.
    rewrite (basename_of_path _ _ (Hno _ Hslash)).
    rewrite (proj2 (truthy_true name) Hne).
    destruct (PyStr.truthy _) eqn:Et; [done|].
    apply truthy_false in Et. apply (f_equal PyStr.chars) in Et.
    rewrite !chars_app in Et. by destruct (PyStr.chars pre).
  - intros pre ->.
    assert (pre +:+ "/" = pre +:+ "/" +:+ "") as -> by done.
    rewrite (basename_of_path pre ""); [|constructor].
    by destruct (PyStr.truthy _).
  - by intros ->.
  - intros Hne Hslash. rewrite (proj2 (truthy_true cwd) Hne).
    unfold os_path_basename.
    rewrite (after_last_slash_free _ [] (Hno _ Hslash)). simpl.
    by rewrite of_chars_chars, (proj2 (truthy_true cwd) Hne).
Qed.

Lemma source_app_fallback_witness :
  get_source_app {[ "CLAUDE_PROJECT_DIR" := "/test/my-project" ]} "/home"
    (λ _, GitCompleted 1 "") = "my-project" ∧
  get_source_app {[ "CLAUDE_PROJECT_DIR" := "/test/my-project/" ]} "/home"
    (λ _, GitFailed) = "unknown".
Proof.
  split.
  - refine (proj1 (source_app_fallback
              {[ "CLAUDE_PROJECT_DIR" := "/test/my-project" ]} "/home"
              (λ _, GitCompleted 1 "") "/test/my-project" eq_refl _)
              "/test" "my-project" eq_refl _ _).
    + right. exists 1, "". split; [reflexivity|]. left. discriminate.
    + discriminate.
    + apply (bool_decide_unpack _). vm_compute. exact I.
  - refine (proj1 (proj2 (source_app_fallback
              {[ "CLAUDE_PROJECT_DIR" := "/test/my-project/" ]} "/home"
              (λ _, GitFailed) "/test/my-project/" eq_refl _))
              "/test/my-project" eq_refl).
    by left.
Defined.

(** ** The event and what sending it can raise *)

(** X11. Besides the four fixed fields, in their order, the event data has
    [chat], [summary] and [model_name] exactly when they are given, in that
    order; no key occurs twice, and each key holds the argument it was built
    from. *)
Theorem event_data_fields (ev : event) :
  map fst (event_data ev) =
    ["source_app"; "session_id"; "hook_event_type"; "payload"]
    ++ from_option (λ _, ["chat"]) [] (chat ev)
    ++ from_option (λ _, ["summary"]) [] (summary ev)
    ++ from_option (λ _, ["model_name"]) [] (model_name ev) ∧
  NoDup (map fst (event_data ev)) ∧
  dict_lookup (event_data ev) "source_app" = Some (PyStr (source_app ev)) ∧
  dict_lookup (event_data ev) "session_id" = Some (PyStr (session_id ev)) ∧
  dict_lookup (event_data ev) "hook_event_type" = Some (PyStr (hook_event_type ev)) ∧
  dict_lookup (event_data ev) "payload" = Some (PyDict (payload ev)) ∧
  dict_lookup (event_data ev) "chat" = PyList <$> chat ev ∧
  dict_lookup (event_data ev) "summary" = PyStr <$> summary ev ∧
  dict_lookup (event_data ev) "model_name" = PyStr <$> model_name ev.
Proof.
  destruct ev as [app sid ty pl [c|] [s|] [m|]];
    (split_and!; [reflexivity| |reflexivity..]);
    apply (bool_decide_unpack _); vm_compute; exact I.
Qed.


(** ** The check before a tool runs *)

Lemma validate_returns_well_formed tool_name tool_input v :
  validate_tool_use tool_name tool_input = Returns v → well_formed v.
Proof.
  destruct (decide (tool_name = "Bash")) as [->|Hb].
  - rewrite validate_bash.
    destruct (dict_get tool_input "command" (PyStr "")); try done.
    rewrite is_dangerous_str. intros [= <-]. apply verdict_of_dangerous_loop.
  - destruct (decide (tool_name ∈ FILE_TOOLS)) as [Hf|Hf].
    + rewrite (validate_file _ _ Hf).
      destruct (dict_get tool_input "file_path" (PyStr "")); try done.
      rewrite is_sensitive_str. intros [= <-]. apply verdict_of_sensitive_check.
    + rewrite validate_other; [intros [= <-]; by left|].
      intros Hin. apply elem_of_cons in Hin as [?|?]; done.
Qed.

Lemma blocked_tool_is_checked tool_name tool_input reason :
  validate_tool_use tool_name tool_input = Returns (false, reason) →
  tool_name ∈ "Bash" :: FILE_TOOLS ∧ ∃ r, reason = Some r.
Proof.
  intros Hv. split.
  - destruct (decide (tool_name ∈ "Bash" :: FILE_TOOLS)) as [|Hout]; [done|].
    by rewrite (validate_other _ _ Hout) in Hv.
  - destruct (validate_returns_well_formed _ _ _ Hv) as [[? _]|[_ (r & Hr & _)]];
      [done|by exists r].
Qed.

Lemma main_of_object `{Json} (float_nonzero : string → bool) (stdin : string)
    (d : dict) (name : string) (ti : dict) (allowed : bool) (reason : option string) :
  json_loads stdin = Returns (PyDict d) → d ≠ [] →
  dict_get d "tool_name" (PyStr "") = PyStr name →
  dict_get d "tool_input" (PyDict []) = PyDict ti →
  validate_tool_use name ti = Returns (allowed, reason) →
  pre_tool_use_main float_nonzero stdin =
  if allowed then {| run_stderr := []; run_ending := Exit 0 |}
  else {| run_stderr := [json_dumps (error_response reason)];
          run_ending := Exit 2 |}.
Proof.
  intros Hv Hd Hn Hi Hr. unfold pre_tool_use_main.
  destruct (read_stdin_json_cases stdin)
    as [[Hb _]|[(v & Hv' & ->)|[(e & He & _)|(e & He & _)]]];
    [by apply loads_not_blank in Hv| |congruence..].
  rewrite Hv in Hv'. injection Hv' as <-.
  destruct d as [|kv d]; [done|]. cbn [truthy_val negb].
  rewrite Hn, Hi. unfold validate_call. rewrite Hr.
  destruct (decide (name ∈ "Bash" :: FILE_TOOLS)) as [Hin|Hout].
  - rewrite (bool_decide_eq_true_2 _ Hin). by destruct allowed.
  - rewrite (bool_decide_eq_false_2 _ Hout).
    rewrite (validate_other _ _ Hout) in Hr. by injection Hr as <- <-.
Qed.

(** X13. Input that is blank, that [json.loads] refuses with a
    [JSONDecodeError], or that decodes to a value Python takes for false (an
    empty object among them) ends the check with status 0: nothing is
    blocked, and standard error has at most the warning of the reader. Input
    on which [json.loads] raises any other exception ends the check with
    that exception, uncaught. *)
Theorem pre_tool_use_fails_open `{Json}
    (float_nonzero : string → bool) (stdin : string) :
  (whitespace_only stdin ∨
   (∃ e, json_loads stdin = Raises e ∧
         issubclass (class_of e) JSONDecodeErrorC = true) ∨
   (∃ v, json_loads stdin = Returns v ∧ truthy_val float_nonzero v = false) →
   run_ending (pre_tool_use_main float_nonzero stdin) = Exit 0 ∧
   (run_stderr (pre_tool_use_main float_nonzero stdin) = [] ∨
    ∃ e, json_loads stdin = Raises e ∧
         run_stderr (pre_tool_use_main float_nonzero stdin)
         = ["Warning: Failed to parse stdin JSON: " +:+ str_exn e])) ∧
  (∀ e, ¬ whitespace_only stdin → json_loads stdin = Raises e →
        issubclass (class_of e) JSONDecodeErrorC = false →
        pre_tool_use_main float_nonzero stdin
        = {| run_stderr := []; run_ending := Traceback (Propagated e) |}).
Proof.
  split.
  - intros Hin. unfold pre_tool_use_main.
    destruct (read_stdin_json_cases stdin)
      as [[Hb ->]|[(v & Hv & ->)|[(e & He & _ & ->)|(e & He & Hc & Hr)]]].
    + split; [done|by left].
    + destruct Hin as [Hb|[(e & He & _)|(v' & Hv' & Hf)]];
        [by apply loads_not_blank in Hv|congruence|].
      rewrite Hv in Hv'. injection Hv' as <-. rewrite Hf. split; [done|by left].
    + split; [done|]. right. by exists e.
    + destruct Hin as [Hb|[(e' & He' & Hc')|(v' & Hv' & _)]]; [|congruence..].
      rewrite (proj1 (proj2 (read_stdin_json_decoded stdin)) Hb) in Hr.
      discriminate Hr.
  - intros e Hb He Hc. unfold pre_tool_use_main.
    by rewrite (proj2 (proj2 (proj2 (proj2 (read_stdin_json_decoded stdin))))
                  e Hb He Hc).
Qed.

Lemma pre_tool_use_fails_open_witness :
  (∃ e, JsonText.loads "not valid json {" = Raises e ∧
        issubclass (class_of e) JSONDecodeErrorC = true) ∧
  run_ending (pre_tool_use_main (H := json_text) (λ _, true) "not valid json {")
  = Exit 0.
Proof.
  assert (∃ e, JsonText.loads "not valid json {" = Raises e ∧
               issubclass (class_of e) JSONDecodeErrorC = true) as He
    by (eexists; split; vm_compute; reflexivity).
  split; [exact He|].
  refine (proj1 (proj1 (pre_tool_use_fails_open (H := json_text) (λ _, true)
                          "not valid json {") _)).
  right. left. exact He.
Defined.

(** X14. When the check ends by itself its status is 0 or 2. It is 2 exactly
    when the input decodes to an object whose [tool_name] is a string, whose
    [tool_input] is an object (or absent), and for which [validate_tool_use]
    answers blocked; standard error then holds one line, the JSON of the
    deny decision with the validator's reason. *)
Theorem pre_tool_use_exit_codes `{Json}
    (float_nonzero : string → bool) (stdin : string) :
  (∀ code, run_ending (pre_tool_use_main float_nonzero stdin) = Exit code →
           code = 0 ∨ code = 2) ∧
  (run_ending (pre_tool_use_main float_nonzero stdin) = Exit 2 ↔
   ∃ d name ti reason,
     json_loads stdin = Returns (PyDict d) ∧
     dict_get d "tool_name" (PyStr "") = PyStr name ∧
     dict_get d "tool_input" (PyDict []) = PyDict ti ∧
     validate_tool_use name ti = Returns (false, Some reason) ∧
     run_stderr (pre_tool_use_main float_nonzero stdin)
     = [json_dumps
          (PyDict
             [ ("decision", PyStr "deny");
               ("reason", PyStr reason);
               ("systemMessage",
                PyStr ("Tool use blocked by observability plugin: " +:+ reason)) ])]).
Proof.
  split.
  - unfold pre_tool_use_main.
    destruct (read_stdin_json stdin) as [[w v]|e]; [|done].
    destruct (negb (truthy_val float_nonzero v)); [intros code [= <-]; by left|].
    destruct v; try done.
    destruct (validate_call _ _) as [e|[[] r]]; [done| |];
      intros code [= <-]; [by left|by right].
  - split.
    + unfold pre_tool_use_main.
      destruct (read_stdin_json_cases stdin)
        as [[Hb ->]|[(v & Hv & ->)|[(e & He & _ & ->)|(e & He & _ & ->)]]];
        [done| |done..].
      destruct (negb (truthy_val float_nonzero v)); [done|].
      destruct v as [| | | | | |d]; try done.
      unfold validate_call.
      destruct (dict_get d "tool_name" (PyStr "")) as [| | | |name| |] eqn:En;
        try done.
      destruct (bool_decide (name ∈ "Bash" :: FILE_TOOLS)); [|done].
      destruct (dict_get d "tool_input" (PyDict [])) as [| | | | | |ti] eqn:Ei;
        try done.
      destruct (validate_tool_use name ti) as [[[] r]|e] eqn:Ev; try done.
      intros _. destruct (blocked_tool_is_checked _ _ _ Ev) as [_ [reason ->]].
      by exists d, name, ti, reason.
    + intros (d & name & ti & reason & Hv & Hn & Hi & Hr & _).
      destruct (blocked_tool_is_checked _ _ _ Hr) as [Hin _].
      assert (d ≠ []) as Hd.
      { intros ->. injection Hn as <-.
        unfold FILE_TOOLS in Hin. set_solver. }
      by rewrite (main_of_object _ _ _ _ _ _ _ Hv Hd Hn Hi Hr).
Qed.

(** X15. End to end: an input that decodes to a Bash call whose command has
    a dangerous delete and no sandbox name ends the check with status 2 and
    the deny line; with a sandbox name in the command it ends with status 0
    and nothing on standard error. *)
Theorem pre_tool_use_blocks_dangerous_rm `{Json}
    (float_nonzero : string → bool) (stdin : string)
    (d ti : dict) (command : string) :
  json_loads stdin = Returns (PyDict d) →
  dict_lookup d "tool_name" = Some (PyStr "Bash") →
  dict_lookup d "tool_input" = Some (PyDict ti) →
  dict_lookup ti "command" = Some (PyStr command) →
  dangerous_command command →
  (¬ in_sandbox command →
   ∃ pattern,
     pattern ∈ DANGEROUS_RM_PATTERNS ∧
     pre_tool_use_main float_nonzero stdin =
     {| run_stderr :=
          [json_dumps (error_response (Some (dangerous_reason pattern)))];
        run_ending := Exit 2 |}) ∧
  (in_sandbox command →
   pre_tool_use_main float_nonzero stdin =
   {| run_stderr := []; run_ending := Exit 0 |}).
Proof.
  intros Hv Hn Hi Hc Hd.
  assert (d ≠ []) as Hne by (by intros ->).
  pose proof (dict_get_found _ _ (PyStr "") _ Hn) as Hn'.
  pose proof (dict_get_found _ _ (PyDict []) _ Hi) as Hi'.
  split.
  - intros Hout. apply dangerous_command_spec in Hd.
    assert (is_safe command = false) as Hs.
    { destruct (is_safe command) eqn:E; [|done]. by apply is_safe_spec in E. }
    destruct (dangerous_loop_hit _ _ Hs Hd) as (p & Hp & _ & El).
    exists p. split; [done|].
    rewrite (main_of_object _ _ _ _ _ false (Some (dangerous_reason p))
               Hv Hne Hn' Hi'); [done|].
    by rewrite (validate_bash_str _ _ Hc), El.
  - intros Hin. apply is_safe_spec in Hin.
    rewrite (main_of_object _ _ _ _ _ true None Hv Hne Hn' Hi'); [done|].
    by rewrite (validate_bash_str _ _ Hc), (dangerous_loop_safe _ _ Hin).
Qed.

Lemma pre_tool_use_blocks_dangerous_rm_witness :
  JsonText.loads rm_hook_text = Returns (PyDict rm_hook_data) ∧
  dangerous_command "rm -rf /" ∧ ¬ in_sandbox "rm -rf /" ∧
  ∃ pattern,
    pattern ∈ DANGEROUS_RM_PATTERNS ∧
    pre_tool_use_main (H := json_text) (λ _, true) rm_hook_text =
    {| run_stderr :=
         [JsonText.dumps (error_response (Some (dangerous_reason pattern)))];
       run_ending := Exit 2 |}.
Proof.
  assert (JsonText.loads rm_hook_text = Returns (PyDict rm_hook_data)) as Hv
    by (vm_compute; reflexivity).
  assert (dangerous_command "rm -rf /") as Hd.
  { apply dangerous_command_spec. exists "rm\s+-rf\s+/".
    split; [repeat constructor|reflexivity]. }
  assert (¬ in_sandbox "rm -rf /") as Hout.
  { intros Hs. apply is_safe_spec in Hs. vm_compute in Hs. discriminate Hs. }
  split_and!; [exact Hv|exact Hd|exact Hout|].
  exact (proj1 (pre_tool_use_blocks_dangerous_rm (H := json_text) (λ _, true)
                  rm_hook_text rm_hook_data [("command", PyStr "rm -rf /")]
                  "rm -rf /" Hv eq_refl eq_refl eq_refl Hd) Hout).
Defined.

(** X16. The check does not end by itself, but with an [AttributeError],
    when the input decodes to a value that is not an object and that Python
    takes for true (a non-empty list or string, a number other than zero),
    and when the tool is Bash, Read, Write or Edit and [tool_input] is
    present but not an object. *)
Theorem pre_tool_use_attribute_error `{Json}
    (float_nonzero : string → bool) (stdin : string) :
  (∃ v, json_loads stdin = Returns v ∧ truthy_val float_nonzero v = true ∧
        ∀ d, v ≠ PyDict d) ∨
  (∃ d name x, json_loads stdin = Returns (PyDict d) ∧
               dict_lookup d "tool_name" = Some (PyStr name) ∧
               name ∈ "Bash" :: FILE_TOOLS ∧
               dict_lookup d "tool_input" = Some x ∧ ∀ ti, x ≠ PyDict ti) →
  run_ending (pre_tool_use_main float_nonzero stdin) = Traceback AttributeError.
Proof.
  unfold pre_tool_use_main.
  intros [(v & Hv & Ht & Hnd)|(d & name & x & Hv & Hn & Hin & Hx & Hnd)];
    (destruct (read_stdin_json_cases stdin)
       as [[Hb _]|[(v' & Hv' & ->)|[(e & He & _)|(e & He & _)]]];
     [by apply loads_not_blank in Hv| |congruence..]);
    rewrite Hv in Hv'; injection Hv' as <-.
  - rewrite Ht. cbn [negb]. destruct v; try done. by destruct (Hnd items).
  - destruct d as [|kv d]; [done|]. cbn [truthy_val negb].
    rewrite (dict_get_found _ _ _ _ Hn), (dict_get_found _ _ _ _ Hx).
    unfold validate_call. rewrite (bool_decide_eq_true_2 _ Hin).
    destruct x; try done. by destruct (Hnd items).
Qed.

Lemma pre_tool_use_attribute_error_witness :
  JsonText.loads list_hook_text = Returns (PyList [PyInt 1]) ∧
  run_ending (pre_tool_use_main (H := json_text) (λ _, true) list_hook_text)
  = Traceback AttributeError.
Proof.
  assert (JsonText.loads list_hook_text = Returns (PyList [PyInt 1])) as Hv
    by (vm_compute; reflexivity).
  split; [exact Hv|].
  apply (pre_tool_use_attribute_error (H := json_text) (λ _, true) list_hook_text).
  left. exists (PyList [PyInt 1]). split; [exact Hv|]. split; [reflexivity|].
  intros d. discriminate.
Defined.

(** ** The transcript *)

Lemma chat_lines_spec `{Json} failure : ∀ lines chat,
  Forall (λ line, line_passes line = true) lines →
  chat_lines chat lines failure = (chat ++ omap line_value lines, failure).
Proof.
  induction lines as [|line lines IH]; intros chat Hl; simpl.
  { by rewrite app_nil_r. }
  inversion Hl as [|? ? Hp Hl']; subst. unfold line_passes in Hp.
  unfold line_value at 1.
  destruct (PyStr.truthy (PyStr.strip line)) eqn:Et.
  - destruct (json_loads (PyStr.strip line)) as [v|e] eqn:E; simpl.
    + rewrite (IH _ Hl'). by rewrite <- app_assoc.
    + simpl in Hp. rewrite Hp. simpl. by apply IH.
  - apply truthy_false in Et.
    assert (PyStr.strip (PyStr.strip line) = "") as Hb by (by rewrite Et).
    rewrite Et in *.
    destruct (json_loads_blank _ Hb) as [e ->]. by apply IH.
Qed.

Lemma chat_lines_raises `{Json} failure line after e : ∀ before chat,
  Forall (λ line, line_passes line = true) before →
  PyStr.strip line ≠ "" → json_loads (PyStr.strip line) = Raises e →
  issubclass (class_of e) JSONDecodeErrorC = false →
  chat_lines chat (before ++ line :: after) failure
  = (chat ++ omap line_value before, Some e).
Proof.
  intros before chat Hb Hn He Hc. revert chat.
  induction Hb as [|l before Hp Hb IH]; intros chat; simpl.
  - rewrite (proj2 (truthy_true _) Hn), He. simpl. rewrite Hc.
    by rewrite app_nil_r.
  - unfold line_passes in Hp. unfold line_value at 1.
    destruct (PyStr.truthy (PyStr.strip l)) eqn:Et.
    + destruct (json_loads (PyStr.strip l)) as [v|e'] eqn:E; simpl.
      * rewrite IH. by rewrite <- app_assoc.
      * simpl in Hp. rewrite Hp. simpl. apply IH.
    + apply truthy_false in Et.
      assert (PyStr.strip (PyStr.strip l) = "") as Hs by (by rewrite Et).
      rewrite Et in *.
      destruct (json_loads_blank _ Hs) as [e' ->]. apply IH.
Qed.

(** X17. A path that is empty or names no file gives the empty list. For a
    file whose lines are blank, decode, or are refused with a
    [JSONDecodeError], the values of the lines that decode are gathered in
    the order of the file: they are the result when the file is read to its
    end, and also when an [OSError] stops the reading; any other exception
    that stops it, a [UnicodeDecodeError] among them, leaves the function.
    So does what [json.loads] raises on a line, when it is neither a
    [JSONDecodeError] nor an [OSError]. *)
Theorem read_chat_transcript_spec `{Json}
    (fs : string → file) (transcript_path : string) :
  (transcript_path = "" ∨ fs transcript_path = NoFile →
   read_chat_transcript fs transcript_path = Returns []) ∧
  (∀ lines failure,
     transcript_path ≠ "" → fs transcript_path = File lines failure →
     Forall (λ line, line_passes line = true) lines →
     read_chat_transcript fs transcript_path =
     match failure with
     | None => Returns (omap line_value lines)
     | Some e =>
         if issubclass (class_of e) OSErrorC
         then Returns (omap line_value lines)
         else Raises e
     end) ∧
  (∀ before line after failure e,
     transcript_path ≠ "" →
     fs transcript_path = File (before ++ line :: after) failure →
     Forall (λ line, line_passes line = true) before →
     PyStr.strip line ≠ "" → json_loads (PyStr.strip line) = Raises e →
     issubclass (class_of e) JSONDecodeErrorC = false →
     read_chat_transcript fs transcript_path =
     if issubclass (class_of e) OSErrorC
     then Returns (omap line_value before)
     else Raises e).
Proof.
  split_and!.
  - unfold read_chat_transcript. intros [->|Hn]; [done|].
    rewrite Hn. by destruct (PyStr.truthy _).
  - intros lines failure Hp Hf Hl. unfold read_chat_transcript.
    rewrite (proj2 (truthy_true _) Hp), Hf, (chat_lines_spec _ _ _ Hl).
    by destruct failure.
  - intros before line after failure e Hp Hf Hb Hn He Hc.
    unfold read_chat_transcript.
    rewrite (proj2 (truthy_true _) Hp), Hf.
    by rewrite (chat_lines_raises _ _ _ _ _ _ Hb Hn He Hc).
Qed.

(** ** Starting the server *)

Lemma ensure_script_path (root : string) :
  root ≠ "" →
  os_path_join root ["scripts"; "ensure-server.sh"] =
  (if endswith_slash root then root else root +:+ "/")
  +:+ "scripts/ensure-server.sh".
Proof.
  intros Hr. unfold os_path_join. simpl.
  rewrite (proj2 (truthy_true root) Hr). simpl.
  assert (∀ x, PyStr.truthy (x +:+ "scripts") = true ∧
               endswith_slash (x +:+ "scripts") = false) as Hs.
  { intros x. split.
    - apply truthy_true. intros E. apply (f_equal PyStr.chars) in E.
      rewrite chars_app in E. by destruct (PyStr.chars x).
    - unfold endswith_slash. rewrite chars_app.
      change (PyStr.chars "scripts") with (PyStr.chars "script" ++ ["s"%char]).
      by rewrite app_assoc, last_snoc. }
  destruct (endswith_slash root).
  - destruct (Hs root) as [-> ->]. simpl.
    apply chars_inj. rewrite !chars_app. by rewrite <- !app_assoc.
  - assert (root +:+ "/" +:+ "scripts" = (root +:+ "/") +:+ "scripts") as ->.
    { apply chars_inj. rewrite !chars_app. by rewrite <- !app_assoc. }
    destruct (Hs (root +:+ "/")) as [-> ->]. simpl.
    apply chars_inj. rewrite !chars_app. by rewrite <- !app_assoc.
Qed.

Lemma try_except_os_error (r : result bool) :
  try_except r [ ([OSErrorC], λ _, Returns false) ] =
  match r with
  | Returns b => Returns b
  | Raises e => if issubclass (class_of e) OSErrorC then Returns false else Raises e
  end.
Proof.
  destruct r as [b|e]; [done|]. simpl.
  by destruct (issubclass (class_of e) OSErrorC).
Qed.

Lemma ensure_server_running_unfold
    (env : environ) (net : network) (path_exists : string → bool)
    (run : list string → run_outcome) (net' : network) :
  ensure_server_running env net path_exists run net' =
  match check_server_health env net with
  | Raises e => Raises e
  | Returns true => Returns true
  | Returns false =>
      match env !! "CLAUDE_PLUGIN_ROOT" with
      | Some root =>
          if PyStr.truthy root then
            if path_exists (ensure_script root) then
              match run ["bash"; ensure_script root] with
              | RunCompleted =>
                  match check_server_health env net' with
                  | Returns b => Returns b
                  | Raises e =>
                      if issubclass (class_of e) OSErrorC
                      then Returns false else Raises e
                  end
              | RunFailed => Returns false
              end
            else Returns false
          else Returns false
      | None => Returns false
      end
  end.
Proof.
  unfold ensure_server_running.
  destruct (check_server_health env net) as [[]|e]; cbn [bind]; [done| |done].
  destruct (env !! "CLAUDE_PLUGIN_ROOT") as [root|];
    cbn [from_option id PyStr.truthy negb]; [|done].
  destruct (PyStr.truthy root) eqn:Et; cbn [negb]; [|done].
  apply truthy_true in Et. rewrite (ensure_script_path _ Et).
  fold (ensure_script root).
  destruct (path_exists (ensure_script root)); [|done].
  destruct (run ["bash"; ensure_script root]); [|done].
  apply try_except_os_error.
Qed.

(** X18. What the first health check raises leaves [ensure_server_running]:
    that check stands outside the [try]. When it returns [True] so does the
    function. When it returns [False], the function returns [False] unless
    the script runs ([CLAUDE_PLUGIN_ROOT] set and not empty,
    [scripts/ensure-server.sh] under it present, the run completed); then
    the second check decides: its truth value is returned, an [OSError] it
    raises gives [False], and any other exception leaves the function.
    Whenever the function returns, it returns [True] exactly when the check
    that decided was answered with status 200. *)
Theorem ensure_server_running_spec
    (env : environ) (net : network) (path_exists : string → bool)
    (run : list string → run_outcome) (net' : network) :
  (∀ e, check_server_health env net = Raises e →
        ensure_server_running env net path_exists run net' = Raises e) ∧
  (check_server_health env net = Returns true →
   ensure_server_running env net path_exists run net' = Returns true) ∧
  (check_server_health env net = Returns false →
   ¬ script_runs env path_exists run →
   ensure_server_running env net path_exists run net' = Returns false) ∧
  (check_server_health env net = Returns false →
   script_runs env path_exists run →
   ensure_server_running env net path_exists run net' =
   match check_server_health env net' with
   | Returns b => Returns b
   | Raises e =>
       if issubclass (class_of e) OSErrorC then Returns false else Raises e
   end) ∧
  (∀ b, ensure_server_running env net path_exists run net' = Returns b →
        (b = true ↔
         (∃ msg body, net (health_request env) = Responds 200 msg body) ∨
         (script_runs env path_exists run ∧
          ∃ msg body, net' (health_request env) = Responds 200 msg body))).
Proof.
  rewrite ensure_server_running_unfold.
  assert (script_runs env path_exists run ↔
          ∃ root, env !! "CLAUDE_PLUGIN_ROOT" = Some root ∧
                  PyStr.truthy root = true ∧
                  path_exists (ensure_script root) = true ∧
                  run ["bash"; ensure_script root] = RunCompleted) as Hs.
  { unfold script_runs. by setoid_rewrite truthy_true. }
  pose proof (check_server_health_answered env net) as (_ & _ & _ & _ & _ & H1).
  pose proof (check_server_health_answered env net') as (_ & _ & _ & _ & _ & H2).
  split_and!.
  - by intros e ->.
  - by intros ->.
  - intros -> Hno. rewrite Hs in Hno.
    destruct (env !! "CLAUDE_PLUGIN_ROOT") as [root|]; [|done].
    destruct (PyStr.truthy root) eqn:Et; [|done].
    destruct (path_exists (ensure_script root)) eqn:Ee; [|done].
    destruct (run ["bash"; ensure_script root]) eqn:Er; [|done].
    destruct Hno. by exists root.
  - intros -> (root & -> & -> & -> & ->)%Hs. done.
  - intros b.
    destruct (check_server_health env net) as [[]|e] eqn:E1; [| |done].
    { intros [= <-]. split; [|done]. intros _. left. by apply (H1 true). }
    assert (¬ ∃ msg body, net (health_request env) = Responds 200 msg body)
      as Hno1.
    { intros Hex. by apply (H1 false eq_refl) in Hex. }
    assert (script_runs env path_exists run ∨ ¬ script_runs env path_exists run)
      as [Hr|Hr].
    { rewrite Hs.
      destruct (env !! "CLAUDE_PLUGIN_ROOT") as [root|]; [|right; by intros (? & ? & _)].
      destruct (PyStr.truthy root) eqn:Et;
        [|right; intros (? & [= <-] & ? & _); congruence].
      destruct (path_exists (ensure_script root)) eqn:Ee;
        [|right; intros (? & [= <-] & _ & ? & _); congruence].
      destruct (run ["bash"; ensure_script root]) eqn:Er;
        [|right; intros (? & [= <-] & _ & _ & ?); congruence].
      left. by exists root. }
    + pose proof Hr as (root & -> & -> & -> & ->)%Hs.
      destruct (check_server_health env net') as [b'|e] eqn:E2.
      * intros [= <-]. rewrite (H2 b' eq_refl). split; [by right|].
        by intros [?|[_ ?]].
      * destruct (issubclass (class_of e) OSErrorC); [|done].
        intros [= <-]. split; [done|]. intros [?|[_ Hex]]; [done|].
        rewrite check_server_health_value in E2.
        destruct Hex as (msg & body & Hex). by rewrite Hex in E2.
    + intros Hb. split; [|by intros [?|[? _]]].
      intros ->. destruct Hr. apply Hs.
      destruct (env !! "CLAUDE_PLUGIN_ROOT") as [root|]; [|done].
      destruct (PyStr.truthy root) eqn:Et; [|done].
      destruct (path_exists (ensure_script root)) eqn:Ee; [|done].
      destruct (run ["bash"; ensure_script root]) eqn:Er; [|done].
      by exists root.
Qed.

(** ** [.git] inside the name *)

Lemma starts_with_take w s :
  take (length w) s = w → JsonText.starts_with w s = Some (drop (length w) s).
Proof. intros E. unfold JsonText.starts_with. by rewrite bool_decide_eq_true_2. Qed.

Lemma starts_with_length w s r :
  JsonText.starts_with w s = Some r → length s = (length w + length r)%nat.
Proof. intros E. apply starts_with_Some in E. by rewrite E, length_app. Qed.

Lemma replace_fuel_enough old new : old ≠ [] → ∀ f1 f2 s,
  (length s ≤ f1)%nat → (length s ≤ f2)%nat →
  replace_fuel f1 old new s = replace_fuel f2 old new s.
Proof.
  intros Hold. induction f1 as [|f1 IH]; intros f2 s H1 H2.
  { destruct s; [by destruct f2|simpl in H1; lia]. }
  destruct s as [|c s]; [by destruct f2|].
  destruct f2 as [|f2]; [simpl in H2; lia|]. cbn [replace_fuel].
  simpl in H1, H2.
  destruct (JsonText.starts_with old (c :: s)) as [rest|] eqn:E.
  - apply starts_with_length in E. simpl in E.
    destruct old as [|o old]; [done|]. simpl in E.
    f_equal. apply IH; lia.
  - f_equal. apply IH; lia.
Qed.

Lemma replace_dot_git_first : ∀ a b fuel,
  absent DOT_GIT (a ++ PyStr.chars ".gi") →
  (length a + 4 + length b ≤ fuel)%nat →
  replace_fuel fuel DOT_GIT [] (a ++ DOT_GIT ++ b)
  = a ++ replace_fuel (length b) DOT_GIT [] b.
Proof.
  induction a as [|c a IH]; intros b fuel Ha Hf.
  - destruct fuel as [|fuel]; [simpl in Hf; lia|].
    change ([] ++ DOT_GIT ++ b) with ("."%char :: (PyStr.chars "git") ++ b).
    cbn [replace_fuel].
    rewrite (starts_with_take DOT_GIT ("."%char :: (PyStr.chars "git") ++ b))
      by done.
    simpl. apply replace_fuel_enough; [done|simpl in Hf; lia|done].
  - destruct fuel as [|fuel]; [simpl in Hf; lia|].
    change ((c :: a) ++ DOT_GIT ++ b) with (c :: a ++ DOT_GIT ++ b).
    cbn [replace_fuel].
    destruct (JsonText.starts_with DOT_GIT (c :: a ++ DOT_GIT ++ b))
      as [rest|] eqn:E.
    + exfalso. unfold JsonText.starts_with in E.
      case_bool_decide as Et; [|done]. clear E.
      assert (c :: a ++ DOT_GIT ++ b
              = ((c :: a) ++ PyStr.chars ".gi") ++ "t"%char :: b) as Es
        by (simpl; by rewrite <- !app_assoc).
      rewrite Es, take_app_le in Et by (rewrite length_app; simpl; lia).
      apply (Ha [] (drop 4 ((c :: a) ++ PyStr.chars ".gi"))).
      rewrite <- (take_drop 4 ((c :: a) ++ PyStr.chars ".gi")) at 1.
      change (length DOT_GIT) with 4%nat in Et. by rewrite Et.
    + simpl. f_equal. apply IH; [eapply absent_tail, Ha|simpl in Hf; lia].
Qed.

(** X19. Every [.git] in the last component of the remote URL is removed, not
    only a final one: when the component is [a.gitb], with the first [.git]
    where written, the source app is [a] followed by [b] without its own
    [.git]s, if that is not empty. *)
Theorem source_app_drops_inner_dot_git
    (env : environ) (getcwd : string) (git : string → git_outcome)
    (stdout pre a b : string) :
  git (default getcwd (env !! "CLAUDE_PROJECT_DIR")) = GitCompleted 0 stdout →
  PyStr.strip stdout = pre +:+ "/" +:+ a +:+ ".git" +:+ b →
  "/"%char ∉ PyStr.chars a → "/"%char ∉ PyStr.chars b →
  ¬ contains ".git" (a +:+ ".gi") →
  a +:+ str_replace b ".git" "" ≠ "" →
  get_source_app env getcwd git = a +:+ str_replace b ".git" "".
Proof.
  intros Hgit Hurl Ha Hb Hna Hne. unfold get_source_app.
  rewrite Hgit, Hurl, last_item_split. cbn [bool_decide decide_rel]. simpl andb.
  assert (∀ s, "/"%char ∉ PyStr.chars s → no_slash (PyStr.chars s)) as Hno.
  { intros s Hs. apply Forall_forall. by intros c Hc ->. }
  assert (no_slash (PyStr.chars (a +:+ ".git" +:+ b))) as Hns.
  { rewrite !chars_app. apply Forall_app. split; [by apply Hno|].
    apply Forall_app. split; [unfold no_slash; by repeat constructor|by apply Hno]. }
  rewrite (basename_of_path _ _ Hns).
  assert (str_replace (a +:+ ".git" +:+ b) ".git" ""
          = a +:+ str_replace b ".git" "") as ->.
  { unfold str_replace. rewrite !chars_app.
    change (PyStr.chars ".git") with DOT_GIT.
    apply contains_absent in Hna. rewrite chars_app in Hna.
    rewrite replace_dot_git_first; [|done|].
    - by rewrite of_chars_app, of_chars_chars, chars_length.
    - rewrite <- chars_length, !chars_app, !length_app. simpl. lia. }
  assert (PyStr.truthy (pre +:+ "/" +:+ a +:+ ".git" +:+ b) = true) as ->.
  { apply truthy_true. intros E. apply (f_equal PyStr.chars) in E.
    rewrite !chars_app in E. by destruct (PyStr.chars pre). }
  by rewrite (proj2 (truthy_true _) Hne).
Qed.

Lemma source_app_drops_inner_dot_git_witness :
  PyStr.strip ("https://github.com/me/me.github.io.git" +:+ LF)
  = "https://github.com/me" +:+ "/" +:+ "me" +:+ ".git" +:+ "hub.io.git" ∧
  str_replace "hub.io.git" ".git" "" = "hub.io" ∧
  get_source_app ∅ "/home/me/site"
    (λ _, GitCompleted 0 ("https://github.com/me/me.github.io.git" +:+ LF))
  = "me" +:+ str_replace "hub.io.git" ".git" "".
Proof.
  assert (PyStr.strip ("https://github.com/me/me.github.io.git" +:+ LF)
          = "https://github.com/me" +:+ "/" +:+ "me" +:+ ".git" +:+ "hub.io.git")
    as Hurl by (vm_compute; reflexivity).
  split; [exact Hurl|]. split; [vm_compute; reflexivity|].
  apply (source_app_drops_inner_dot_git ∅ "/home/me/site"
           (λ _, GitCompleted 0 ("https://github.com/me/me.github.io.git" +:+ LF))
           ("https://github.com/me/me.github.io.git" +:+ LF)
           "https://github.com/me" "me" "hub.io.git").
  - reflexivity.
  - exact Hurl.
  - apply (bool_decide_unpack _). vm_compute. exact I.
  - apply (bool_decide_unpack _). vm_compute. exact I.
  - intros Hc. apply search_lit_exact in Hc. vm_compute in Hc. discriminate Hc.
  - vm_compute. discriminate.
Defined.

(** ** The cases of test_source_app.py *)

Example test_get_source_app :
  get_source_app {[ "CLAUDE_PROJECT_DIR" := "/test/project" ]} "/home"
    (λ _, GitCompleted 0 ("https://github.com/user/my-awesome-repo.git" +:+ LF))
  = "my-awesome-repo" ∧
  get_source_app {[ "CLAUDE_PROJECT_DIR" := "/test/project" ]} "/home"
    (λ _, GitCompleted 0 ("git@github.com:user/another-repo.git" +:+ LF))
  = "another-repo" ∧
  get_source_app {[ "CLAUDE_PROJECT_DIR" := "/test/my-project" ]} "/home"
    (λ _, GitCompleted 1 "")
  = "my-project" ∧
  get_source_app {[ "CLAUDE_PROJECT_DIR" := "/test/project" ]} "/home"
    (λ _, GitFailed)
  = "project".
Proof. split_and!; vm_compute; reflexivity. Qed.

(** ** Failures the clauses do not name *)

(** A connection closed without an answer and a status line that is not
    HTTP also leave [check_server_health]. *)
Example check_server_health_other_failures :
  check_server_health ∅ (λ _, Disconnects)
  = Raises (RemoteDisconnected "Remote end closed connection without response") ∧
  check_server_health ∅ (λ _, Garbles "SSH-2.0-OpenSSH")
  = Raises (BadStatusLine "SSH-2.0-OpenSSH").
Proof. split; reflexivity. Qed.

(** The first check of [ensure_server_running] lets the timeout through; at
    the second the clause for [OSError] takes it, and not a garbled status
    line. *)
Example ensure_server_running_timeouts :
  let env : environ := {[ "CLAUDE_PLUGIN_ROOT" := "/plugin" ]} in
  let down : network := λ _, Unreachable "Connection refused" in
  ensure_server_running env silent_server (λ _, true) (λ _, RunCompleted) down
  = Raises (TimeoutError "timed out") ∧
  ensure_server_running env down (λ _, true) (λ _, RunCompleted) silent_server
  = Returns false ∧
  ensure_server_running env down (λ _, true) (λ _, RunCompleted) (λ _, Garbles "x")
  = Raises (BadStatusLine "x") ∧
  ensure_server_running env down (λ _, true) (λ _, RunCompleted)
    (λ _, Responds 200 "OK" "")
  = Returns true.
Proof. split_and!; vm_compute; reflexivity. Qed.

(** A transcript of an object, a blank line, a line that is no JSON and a
    list: read to its end, stopped by an [OSError], and stopped by bytes
    that are no text. *)
Example read_chat_transcript_failures :
  let lines := ["{}" +:+ LF; "  " +:+ LF; "not json" +:+ LF; "[1]"] in
  read_chat_transcript (H := json_text) (λ _, File lines None) "t.jsonl"
  = Returns [PyDict []; PyList [PyInt 1]] ∧
  read_chat_transcript (H := json_text)
    (λ _, File lines (Some (OSError "Input/output error"))) "t.jsonl"
  = Returns [PyDict []; PyList [PyInt 1]] ∧
  read_chat_transcript (H := json_text)
    (λ _, File lines (Some (UnicodeDecodeError "invalid start byte"))) "t.jsonl"
  = Raises (UnicodeDecodeError "invalid start byte") ∧
  (∃ e, read_chat_transcript (H := json_text)
          (λ _, File ["{}" +:+ LF; long_integer +:+ LF; "[1]"] None) "t.jsonl"
        = Raises e ∧ class_of e = ValueErrorC).
Proof. split_and!; [vm_compute; reflexivity..|]. eexists. split; vm_compute; reflexivity. Qed.

(** The integer of 4300 digits still decodes. *)
Example longest_integer_decodes :
  ∃ z, JsonText.loads (PyStr.of_chars (repeat "1"%char 4300)) = Returns (PyInt z).
Proof. eexists. vm_compute. reflexivity. Qed.
